(** * LearnIRCode: the learn-one-IR-code sketch, embedded and verified

    A shallow embedding of [LearnIRCode/LearnIRCode.ino].  The sketch is
    written for the AVR Arduino boards that [EEPROM.h] serves: [int] is 16
    bits and [long] is 32 bits there, which is what the sketch itself relies
    on when it splits one [long] into an [int data[2]] ("long -> int and
    back").  Integers are modelled as [Z] with the wrap-around of each
    conversion written out; the sketch's globals, the EEPROM cells and the
    pins form an explicit board state that a small state monad threads
    through the procedures, and every call into the Arduino core, the EEPROM
    library or the IR receiver is appended to a chronological trace. *)

From Stdlib Require Import ZArith Lia List Bool.
From stdpp Require Import base gmap.
Import ListNotations.
Local Open Scope Z_scope.

(** ** Machine integers of the AVR target *)

Module CInt.

(** Conversion to an unsigned type of [w] bits. *)
Definition wrap_unsigned (w z : Z) : Z := z mod 2 ^ w.

(** Conversion to a signed (two's complement) type of [w] bits. *)
Definition wrap_signed (w z : Z) : Z :=
  (z + 2 ^ (w - 1)) mod 2 ^ w - 2 ^ (w - 1).

Definition to_uint8 : Z -> Z := wrap_unsigned 8.
Definition to_uint16 : Z -> Z := wrap_unsigned 16.
Definition to_ulong : Z -> Z := wrap_unsigned 32.
Definition to_int : Z -> Z := wrap_signed 16.
Definition to_long : Z -> Z := wrap_signed 32.

Definition INT_MIN : Z := -32768.
Definition INT_MAX : Z := 32767.
Definition LONG_MIN : Z := -2147483648.
Definition LONG_MAX : Z := 2147483647.

Definition is_int (z : Z) : Prop := INT_MIN <= z <= INT_MAX.
Definition is_long (z : Z) : Prop := LONG_MIN <= z <= LONG_MAX.
Definition is_ulong (z : Z) : Prop := 0 <= z <= 4294967295.

(** [a + b] and [a * b] computed in [int]. *)
Definition int_add (a b : Z) : Z := to_int (a + b).
Definition int_mul (a b : Z) : Z := to_int (a * b).

(** A [boolean] assigned from an integer, and read back as one. *)
Definition to_boolean (z : Z) : bool := negb (z =? 0).
Definition of_boolean (b : bool) : Z := Z.b2z b.

End CInt.
Export CInt.

(** ** Macros of the Arduino core and of the sketch *)

(** [#define highByte(w) ((uint8_t) ((w) >> 8))] *)
Definition highByte (w : Z) : Z := to_uint8 (Z.shiftr w 8).

(** [#define lowByte(w) ((uint8_t) ((w) & 0xff))] *)
Definition lowByte (w : Z) : Z := to_uint8 (Z.land w 255).

(** [uint16_t word(uint8_t h, uint8_t l) { return (h << 8) | l; }] *)
Definition word (h l : Z) : Z := to_uint16 (Z.lor (Z.shiftl h 8) l).

(** [#define makeLong(hi, low)  (((long) hi) << 16 | (low))]: [hi] and [low]
    are [int]; the cast widens [hi], the shift is done in [long], and the
    usual arithmetic conversions widen [low] to [long] with its sign before
    the bitwise or. *)
Definition makeLong (hi low : Z) : Z := to_long (Z.lor (to_long (Z.shiftl hi 16)) low).

(** [#define highWord(w) ((w) >> 16)] on a [long]. *)
Definition highWord (w : Z) : Z := Z.shiftr w 16.

(** [#define lowWord(w) ((w) & 0xffff)] on a [long]. *)
Definition lowWord (w : Z) : Z := Z.land w 65535.

Definition LEARN_BUTTON_PIN : Z := 10.
Definition LEARN_LED_PIN : Z := 12.
Definition WORK_LED_PIN : Z := 7.
Definition IR_CODE_DATA_ADDRESS : Z := 0.

(** ** The board: globals of the sketch, peripherals, environment *)

Module IRremote.

(** The two fields of the receiver's [decode_results] the sketch reads:
    [int decode_type] and [unsigned long value]. *)
Record decode_results : Type := mk_results {
  decode_type : Z;
  value : Z
}.

End IRremote.

(** The global variables of the sketch. *)
Record Sketch : Type := mkSketch {
  learnButtonState : bool;
  learnModeEnabled : bool;
  workLedState : bool;
  irCodeData : Z;
  irresult : IRremote.decode_results
}.

(** Calls that leave the sketch, in the order they are made. *)
Inductive effect : Type :=
| PinModeOutput (pin : Z)
| DigitalRead (pin : Z) (level : Z)
| DigitalWrite (pin : Z) (level : bool)
| Delay (ms : Z)
| EepromRead (address : Z) (byte : Z)
| EepromWrite (address : Z) (byte : Z)
| IrEnable
| IrDecode (ready : bool)
| IrResume.

(** [eeprom] holds the cells that were written; [pins] the levels last
    driven on output pins.  [levels pin k] is the electrical level the k-th
    [digitalRead] of the run finds on [pin] ([true] is HIGH), and [ir k] is
    what the k-th [irrecv.decode] finds; [reads] and [polls] count the calls
    made so far. *)
Record Board : Type := mkBoard {
  vars : Sketch;
  eeprom : gmap Z Z;
  pins : gmap Z bool;
  levels : Z -> nat -> bool;
  reads : nat;
  ir : nat -> option IRremote.decode_results;
  polls : nat;
  trace : list effect
}.

Definition with_vars (f : Sketch -> Sketch) (b : Board) : Board :=
  mkBoard (f (vars b)) (eeprom b) (pins b) (levels b) (reads b) (ir b) (polls b) (trace b).

Definition with_eeprom (f : gmap Z Z -> gmap Z Z) (b : Board) : Board :=
  mkBoard (vars b) (f (eeprom b)) (pins b) (levels b) (reads b) (ir b) (polls b) (trace b).

Definition with_pins (f : gmap Z bool -> gmap Z bool) (b : Board) : Board :=
  mkBoard (vars b) (eeprom b) (f (pins b)) (levels b) (reads b) (ir b) (polls b) (trace b).

Definition next_read (b : Board) : Board :=
  mkBoard (vars b) (eeprom b) (pins b) (levels b) (S (reads b)) (ir b) (polls b) (trace b).

Definition next_poll (b : Board) : Board :=
  mkBoard (vars b) (eeprom b) (pins b) (levels b) (reads b) (ir b) (S (polls b)) (trace b).

Definition log (e : effect) (b : Board) : Board :=
  mkBoard (vars b) (eeprom b) (pins b) (levels b) (reads b) (ir b) (polls b) (trace b ++ [e]).

Definition set_learnButtonState (x : bool) (s : Sketch) : Sketch :=
  mkSketch x (learnModeEnabled s) (workLedState s) (irCodeData s) (irresult s).

Definition set_learnModeEnabled (x : bool) (s : Sketch) : Sketch :=
  mkSketch (learnButtonState s) x (workLedState s) (irCodeData s) (irresult s).

Definition set_workLedState (x : bool) (s : Sketch) : Sketch :=
  mkSketch (learnButtonState s) (learnModeEnabled s) x (irCodeData s) (irresult s).

Definition set_irCodeData (x : Z) (s : Sketch) : Sketch :=
  mkSketch (learnButtonState s) (learnModeEnabled s) (workLedState s) x (irresult s).

Definition set_irresult (x : IRremote.decode_results) (s : Sketch) : Sketch :=
  mkSketch (learnButtonState s) (learnModeEnabled s) (workLedState s) (irCodeData s) x.

(** ** A state monad over the board *)

Definition M (A : Type) : Type := Board -> A * Board.

Definition ret {A : Type} (a : A) : M A := fun b => (a, b).

Definition bind {A B : Type} (m : M A) (k : A -> M B) : M B :=
  fun b => let (a, b') := m b in k a b'.

Declare Scope sketch_scope.
Delimit Scope sketch_scope with sketch.
Notation "x <- m ;; k" := (bind m (fun x => k))
  (at level 100, m at next level, right associativity) : sketch_scope.
Notation "m ;; k" := (bind m (fun _ => k))
  (at level 100, right associativity) : sketch_scope.
Local Open Scope sketch_scope.

Definition get {A : Type} (f : Sketch -> A) : M A := fun b => (f (vars b), b).
Definition put (f : Sketch -> Sketch) : M unit := fun b => (tt, with_vars f b).

(** The board after a procedure, and the value it returns. *)
Definition exec {A : Type} (m : M A) (b : Board) : Board := snd (m b).
Definition eval {A : Type} (m : M A) (b : Board) : A := fst (m b).

(** [for (int i = start; ...; i++)] run for [n] more rounds; [acc] carries
    the locals the body assigns. *)
Fixpoint for_loop {A : Type} (n : nat) (i : Z) (acc : A) (body : Z -> A -> M A) : M A :=
  match n with
  | O => ret acc
  | S n' => acc' <- body i acc ;; for_loop n' (int_add i 1) acc' body
  end.

(** ** The collaborators, at their interface *)

Definition pinModeOutput (pin : Z) : M unit :=
  fun b => (tt, log (PinModeOutput pin) b).

(** [digitalRead] returns HIGH (1) or LOW (0). *)
Definition digitalRead (pin : Z) : M Z :=
  fun b => let v := Z.b2z (levels b pin (reads b)) in
           (v, log (DigitalRead pin v) (next_read b)).

Definition digitalWrite (pin : Z) (level : bool) : M unit :=
  fun b => (tt, log (DigitalWrite pin level) (with_pins (insert pin level) b)).

Definition delay (ms : Z) : M unit :=
  fun b => (tt, log (Delay ms) b).

(** Modelled from the spec: the EEPROM device is not part of the sketch; a
    cell that was never written reads as all-ones (0xFF), "original
    hardware-uninitialized storage reads as all-ones". *)
Definition cell (store : gmap Z Z) (address : Z) : Z :=
  to_uint8 (default 255 (store !! address)).

(** [uint8_t EEPROM.read(int address)] *)
Definition EEPROM_read (address : Z) : M Z :=
  fun b => let v := cell (eeprom b) address in
           (v, log (EepromRead address v) b).

(** [void EEPROM.write(int address, uint8_t value)] *)
Definition EEPROM_write (address : Z) (byte : Z) : M unit :=
  fun b => (tt, log (EepromWrite address (to_uint8 byte))
                    (with_eeprom (insert address (to_uint8 byte)) b)).

Definition irrecv_enableIRIn : M unit :=
  fun b => (tt, log IrEnable b).

(** [irrecv.decode(&irresult)]: true when a command was recognised, and
    then [irresult] holds it. *)
Definition irrecv_decode : M bool :=
  fun b => match ir b (polls b) with
           | Some r => (true, log (IrDecode true) (with_vars (set_irresult r) (next_poll b)))
           | None => (false, log (IrDecode false) (next_poll b))
           end.

Definition irrecv_resume : M unit :=
  fun b => (tt, log IrResume b).

(** ** The sketch *)

(** [void saveToEeprom(long value, int address)] *)
Definition saveToEeprom (value : Z) (address : Z) : M unit :=
  let data := [to_int (highWord value); to_int (lowWord value)] in
  for_loop 2 0 tt (fun i _ =>
    EEPROM_write (int_add address (int_mul i 2)) (highByte (data !!! Z.to_nat i)) ;;
    EEPROM_write (int_add (int_add address (int_mul i 2)) 1) (lowByte (data !!! Z.to_nat i))).

(** [long loadFromEeprom(int address)] *)
Definition loadFromEeprom (address : Z) : M Z :=
  data <- for_loop 4 0 [0; 0; 0; 0] (fun i data =>
            v <- EEPROM_read (int_add address i) ;;
            ret (<[Z.to_nat i := v]> data)) ;;
  let high := to_int (word (data !!! 0%nat) (data !!! 1%nat)) in
  let low := to_int (word (data !!! 2%nat) (data !!! 3%nat)) in
  let result := makeLong high low in
  ret result.

(** [int getButtonState(int pin, boolean pullUp)], the body of its loop:
    [Some r] when a round executes [return r], [None] when the loop runs
    out. *)
Fixpoint getButtonState_rounds (n : nat) (pin pinState : Z) : M (option Z) :=
  match n with
  | O => ret None
  | S n' =>
      delay 10 ;;
      again <- digitalRead pin ;;
      if negb (again =? pinState) then ret (Some (-1))
      else getButtonState_rounds n' pin pinState
  end.

Definition getButtonState (pin : Z) (pullUp : bool) : M Z :=
  pinState <- digitalRead pin ;;
  early <- getButtonState_rounds 3 pin pinState ;;
  match early with
  | Some r => ret r
  | None => ret (Z.lxor (of_boolean pullUp) pinState)
  end.

(** [void processLearnButton()] *)
Definition processLearnButton : M unit :=
  buttonState <- getButtonState LEARN_BUTTON_PIN true ;;
  if buttonState =? -1 then ret tt
  else
    committed <- get learnButtonState ;;
    if buttonState =? of_boolean committed then ret tt
    else
      put (set_learnButtonState (to_boolean buttonState)) ;;
      put (set_learnModeEnabled (to_boolean buttonState)).

(** [void processLearnLed()] *)
Definition processLearnLed : M unit :=
  mode <- get learnModeEnabled ;;
  digitalWrite LEARN_LED_PIN mode.

(** [void processWorkLed()] *)
Definition processWorkLed : M unit :=
  led <- get workLedState ;;
  digitalWrite WORK_LED_PIN led.

(** [void processCode(long value)] *)
Definition processCode (value : Z) : M unit :=
  mode <- get learnModeEnabled ;;
  if mode then
    put (set_irCodeData value) ;;
    code <- get irCodeData ;;
    saveToEeprom code IR_CODE_DATA_ADDRESS ;;
    put (set_learnModeEnabled false) ;;
    delay 100
  else
    code <- get irCodeData ;;
    if code =? value then
      led <- get workLedState ;;
      put (set_workLedState (negb led)) ;;
      delay 100
    else ret tt.

(** [void setup()] *)
Definition setup : M unit :=
  pinModeOutput LEARN_LED_PIN ;;
  pinModeOutput WORK_LED_PIN ;;
  code <- loadFromEeprom IR_CODE_DATA_ADDRESS ;;
  put (set_irCodeData code) ;;
  irrecv_enableIRIn.

Section Receiver.

(** The receiver library's protocol tag [RC6], an [int] constant of
    [IRremote.h]; the library is not part of the sketch, so the tag is
    left open. *)
Variable RC6 : Z.

(** [void processIr()].  [0xFFFFFFFF] is an [unsigned long] literal, so the
    comparison is made in [unsigned long]; [~0x8000LL] is a [long long],
    so the conjunction is made there and converted back to [long]. *)
Definition processIr : M unit :=
  ready <- irrecv_decode ;;
  if ready then
    raw <- get irresult ;;
    let value := to_long (IRremote.value raw) in
    (if negb (4294967295 =? to_ulong value) then
       tag <- get irresult ;;
       let value :=
         if IRremote.decode_type tag =? RC6
         then to_long (Z.land value (Z.lnot 32768))
         else value in
       processCode value
     else ret tt) ;;
    irrecv_resume
  else ret tt.

(** [void loop()] *)
Definition loop : M unit :=
  processLearnButton ;;
  processLearnLed ;;
  processWorkLed ;;
  processIr.

(** [n] passes of [loop], as the Arduino runtime makes them. *)
Fixpoint loops (n : nat) : M unit :=
  match n with
  | O => ret tt
  | S n' => loop ;; loops n'
  end.

(** [n] polls of the receiver alone. *)
Fixpoint polls_of_processIr (n : nat) : M unit :=
  match n with
  | O => ret tt
  | S n' => processIr ;; polls_of_processIr n'
  end.

End Receiver.

(** The board at reset: the globals hold their initialisers, nothing has
    been driven or called yet. *)
Definition power_on (store : gmap Z Z) (button : Z -> nat -> bool)
    (remote : nat -> option IRremote.decode_results) : Board :=
  mkBoard (mkSketch false false false 0 (IRremote.mk_results 0 0))
          store ∅ button 0 remote 0 [].

(** ** What the spec calls the persisted layout *)

(** Byte [k] of the 32-bit pattern of [v], byte 0 being the least
    significant. *)
Definition byte_at (k : Z) (v : Z) : Z := (to_ulong v / 2 ^ (8 * k)) mod 256.

(** The four bytes of a 32-bit value, most significant first. *)
Definition big_endian (v : Z) : list Z :=
  [byte_at 3 v; byte_at 2 v; byte_at 1 v; byte_at 0 v].

(** The cells [address .. address+3] of a store, in address order. *)
Definition stored_at (store : gmap Z Z) (address : Z) : list Z :=
  [cell store address; cell store (address + 1);
   cell store (address + 2); cell store (address + 3)].

(** The EEPROM writes of a trace, in order. *)
Fixpoint eeprom_writes (t : list effect) : list (Z * Z) :=
  match t with
  | [] => []
  | EepromWrite a x :: t' => (a, x) :: eeprom_writes t'
  | _ :: t' => eeprom_writes t'
  end.

(** The writes one [saveToEeprom value address] makes. *)
Definition save_writes (value address : Z) : list (Z * Z) :=
  [(address, byte_at 3 value); (address + 1, byte_at 2 value);
   (address + 2, byte_at 1 value); (address + 3, byte_at 0 value)].

(** The value [loadFromEeprom] rebuilds from what [saveToEeprom] stored:
    the low word widened with its sign when bit 15 is set. *)
Definition reloaded (v : Z) : Z := if Z.testbit v 15 then to_int v else v.

(** The level a [getButtonState] on [pin] would find stable on the board's
    next four reads, if they agree. *)
Definition button_sample (b : Board) (pin : Z) : option bool :=
  let l0 := levels b pin (reads b) in
  if eqb (levels b pin (1 + reads b)) l0
     && eqb (levels b pin (2 + reads b)) l0
     && eqb (levels b pin (3 + reads b)) l0
  then Some l0 else None.

(** The normalizer as the specification words it: no code for the raw value
    0xFFFFFFFF; for the toggle-bit protocol the raw value with bit 15
    cleared, [v & ~0x8000]; for any other tag the raw value itself. *)
Definition normalize (RC6 : Z) (raw : IRremote.decode_results) : option Z :=
  if IRremote.value raw =? 4294967295 then None
  else if IRremote.decode_type raw =? RC6
       then Some (Z.land (IRremote.value raw) (Z.lnot 32768))
       else Some (IRremote.value raw).

(** The four cells at [address] overwritten with [bytes]. *)
Definition write4 (address : Z) (bytes : list Z) (store : gmap Z Z) : gmap Z Z :=
  <[address + 3 := bytes !!! 3%nat]>
    (<[address + 2 := bytes !!! 2%nat]>
       (<[address + 1 := bytes !!! 1%nat]>
          (<[address := bytes !!! 0%nat]> store))).

(** The board after [k] reads of a pin that logged [t]. *)
Definition after_reads (b : Board) (k : nat) (t : list effect) : Board :=
  mkBoard (vars b) (eeprom b) (pins b) (levels b) (k + reads b) (ir b) (polls b)
          (trace b ++ t).

(** Both button flags assigned from one sample, as [processLearnButton]
    does. *)
Definition press (pressed : bool) (s : Sketch) : Sketch :=
  set_learnModeEnabled pressed (set_learnButtonState pressed s).

(** The value the board's next [processIr] hands to [processCode], if it
    hands one: the receiver has a result and its value is not 0xFFFFFFFF. *)
Definition delivered (RC6 : Z) (b : Board) : option Z :=
  match ir b (polls b) with
  | None => None
  | Some r =>
      let value := to_long (IRremote.value r) in
      if 4294967295 =? to_ulong value then None
      else Some (if IRremote.decode_type r =? RC6
                 then to_long (Z.land value (Z.lnot 32768))
                 else value)
  end.

(** The trained code and the store are as before and no EEPROM write was
    logged in between. *)
Definition store_untouched (b b' : Board) : Prop :=
  irCodeData (vars b') = irCodeData (vars b)
  /\ eeprom b' = eeprom b
  /\ eeprom_writes (trace b') = eeprom_writes (trace b).

(** The trained code became [v] and one [saveToEeprom v] was made in
    between, nothing else was written. *)
Definition store_committed (v : Z) (b b' : Board) : Prop :=
  irCodeData (vars b') = v
  /\ eeprom b' = write4 IR_CODE_DATA_ADDRESS (big_endian v) (eeprom b)
  /\ eeprom_writes (trace b') =
       eeprom_writes (trace b) ++ save_writes v IR_CODE_DATA_ADDRESS.

(** The store after the codes of [learned] were saved one after the
    other. *)
Definition saved_in_turn (learned : list Z) (store : gmap Z Z) : gmap Z Z :=
  List.fold_left (fun s v => write4 IR_CODE_DATA_ADDRESS (big_endian v) s) learned store.

(** The EEPROM writes of saving the codes of [learned] one after the other. *)
Definition writes_in_turn (learned : list Z) : list (Z * Z) :=
  List.concat (List.map (fun v => save_writes v IR_CODE_DATA_ADDRESS) learned).

(** Learn mode is only on while the button is recorded as pressed. *)
Definition learning_while_pressed (b : Board) : Prop :=
  learnModeEnabled (vars b) = true -> learnButtonState (vars b) = true.

(** ** Boards to run the sketch on *)

(** A learn button that is never touched: the pulled-up pin reads HIGH. *)
Definition released_button : Z -> nat -> bool := fun _ _ => true.

(** A learn button held down: the pin reads LOW. *)
Definition held_button : Z -> nat -> bool := fun _ _ => false.

(** A contact that bounces: HIGH and LOW alternate from read to read. *)
Definition bouncing_button : Z -> nat -> bool := fun _ k => Nat.even k.

(** A receiver that never decodes anything, and one that decodes the same
    result at every poll. *)
Definition silent_remote : nat -> option IRremote.decode_results := fun _ => None.

Definition repeating_remote (tag raw : Z) : nat -> option IRremote.decode_results :=
  fun _ => Some (IRremote.mk_results tag raw).

(** A board with an erased EEPROM whose sketch variables are [s]. *)
Definition bench (s : Sketch) (button : Z -> nat -> bool)
    (remote : nat -> option IRremote.decode_results) : Board :=
  mkBoard s ∅ ∅ button 0 remote 0 [].

(** The sketch in learn mode with the button recorded as pressed, and in
    normal mode trained to 0xA5. *)
Definition learning : Sketch := mkSketch true true false (-1) (IRremote.mk_results 0 0).

Definition trained : Sketch := mkSketch false false false 165 (IRremote.mk_results 0 0).

(** ** Further vocabulary for the properties of the whole sketch *)

(** The milliseconds a trace spends in [delay]. *)
Fixpoint elapsed (t : list effect) : Z :=
  match t with
  | [] => 0
  | Delay ms :: t' => ms + elapsed t'
  | _ :: t' => elapsed t'
  end.

(** The value [processIr] hands to [processCode] for a decoded result, if
    it hands one: [delivered] without the board. *)
Definition passed_on (RC6 : Z) (r : IRremote.decode_results) : option Z :=
  let value := to_long (IRremote.value r) in
  if 4294967295 =? to_ulong value then None
  else Some (if IRremote.decode_type r =? RC6
             then to_long (Z.land value (Z.lnot 32768))
             else value).

(** The four cells of the store hold the bytes of the trained code. *)
Definition mirrored (b : Board) : Prop :=
  stored_at (eeprom b) IR_CODE_DATA_ADDRESS = big_endian (irCodeData (vars b)).

(** Two boards agree on everything the sketch decides by: its flags, the
    trained code and the store. *)
Definition same_machine (b1 b2 : Board) : Prop :=
  learnButtonState (vars b1) = learnButtonState (vars b2)
  /\ learnModeEnabled (vars b1) = learnModeEnabled (vars b2)
  /\ workLedState (vars b1) = workLedState (vars b2)
  /\ irCodeData (vars b1) = irCodeData (vars b2)
  /\ eeprom b1 = eeprom b2.

(** * Properties *)

(** ** Integer conversions *)

Ltac unfold_cint :=
  unfold to_boolean, of_boolean, int_add, int_mul, to_int, to_long, to_uint8,
    to_uint16, to_ulong, wrap_signed, wrap_unsigned, is_int, is_long,
    is_ulong, INT_MIN, INT_MAX, LONG_MIN, LONG_MAX in *.

Ltac div_mod_lia :=
  unfold_cint; simpl Z.pow in *; Z.div_mod_to_equations; lia.

Lemma to_int_id z : is_int z -> to_int z = z.
Proof. intros H. div_mod_lia. Qed.

Lemma to_long_id z : is_long z -> to_long z = z.
Proof. intros H. div_mod_lia. Qed.

Lemma to_int_is_int z : is_int (to_int z).
Proof. div_mod_lia. Qed.

Lemma int_add_id a b : is_int (a + b) -> int_add a b = a + b.
Proof. apply to_int_id. Qed.

Lemma byte_at_range k v : 0 <= byte_at k v <= 255.
Proof. unfold byte_at. generalize (to_ulong v / 2 ^ (8 * k)). intros. div_mod_lia. Qed.

Lemma big_endian_value v :
  to_ulong v =
  byte_at 3 v * 2 ^ 24 + byte_at 2 v * 2 ^ 16 + byte_at 1 v * 2 ^ 8 + byte_at 0 v.
Proof. unfold byte_at. div_mod_lia. Qed.

Lemma shiftr_div a n : 0 <= n -> Z.shiftr a n = a / 2 ^ n.
Proof. apply Z.shiftr_div_pow2. Qed.

Lemma land_255 a : Z.land a 255 = a mod 256.
Proof. change 255 with (Z.ones 8). now rewrite Z.land_ones. Qed.

Lemma land_65535 a : Z.land a 65535 = a mod 65536.
Proof. change 65535 with (Z.ones 16). now rewrite Z.land_ones. Qed.

Lemma testbit_15 v : Z.testbit v 15 = (32768 <=? v mod 65536).
Proof.
  destruct (Z.testbit v 15) eqn:E.
  - apply Z.testbit_true in E; [|lia]. symmetry. apply Z.leb_le.
    simpl Z.pow in E. Z.div_mod_to_equations. lia.
  - symmetry. apply Z.leb_gt.
    destruct (Z_lt_ge_dec (v mod 65536) 32768) as [Hlt|Hge]; [exact Hlt|].
    assert (Z.testbit v 15 = true) as E'; [|congruence].
    apply Z.testbit_true; [lia|]. simpl Z.pow. Z.div_mod_to_equations. lia.
Qed.

(** The bytes [saveToEeprom] hands to the EEPROM. *)
Lemma saved_byte_3 v : to_uint8 (highByte (to_int (highWord v))) = byte_at 3 v.
Proof.
  unfold highByte, highWord, byte_at. rewrite !shiftr_div by lia. div_mod_lia.
Qed.

Lemma saved_byte_2 v : to_uint8 (lowByte (to_int (highWord v))) = byte_at 2 v.
Proof.
  unfold lowByte, highWord, byte_at. rewrite !shiftr_div by lia.
  rewrite land_255. div_mod_lia.
Qed.

Lemma saved_byte_1 v : to_uint8 (highByte (to_int (lowWord v))) = byte_at 1 v.
Proof.
  unfold highByte, lowWord, byte_at. rewrite !shiftr_div by lia.
  rewrite land_65535. div_mod_lia.
Qed.

Lemma saved_byte_0 v : to_uint8 (lowByte (to_int (lowWord v))) = byte_at 0 v.
Proof.
  unfold lowByte, lowWord, byte_at. rewrite land_255, land_65535. div_mod_lia.
Qed.

(** Disjoint bit ranges: the bitwise or is a sum. *)
Lemma lor_shiftl_low h l k :
  0 <= k -> 0 <= l < 2 ^ k -> Z.lor (Z.shiftl h k) l = h * 2 ^ k + l.
Proof.
  intros Hk Hl. rewrite <- Z.shiftl_mul_pow2 by lia.
  symmetry. apply Z.add_nocarry_lor.
  apply Z.bits_inj'. intros n Hn. rewrite Z.land_spec, Z.bits_0.
  destruct (Z_lt_ge_dec n k) as [Hlt|Hge].
  - rewrite Z.shiftl_spec_low by lia. reflexivity.
  - assert (Z.testbit l n = false) as ->; [|apply andb_false_r].
    destruct (Z.eq_dec l 0) as [->|Hne]; [apply Z.bits_0|].
    apply Z.bits_above_log2; [lia|].
    apply Z.log2_lt_pow2; [lia|].
    apply Z.lt_le_trans with (2 ^ k); [lia|]. apply Z.pow_le_mono_r; lia.
Qed.

(** A negative [int] or-ed under a shifted word swallows it: all its bits
    from 16 up are set. *)
Lemma lor_shiftl_negative h l :
  -65536 <= l < 0 -> Z.lor (Z.shiftl h 16) l = l.
Proof.
  intros Hl. apply Z.bits_inj'. intros n Hn. rewrite Z.lor_spec.
  destruct (Z_lt_ge_dec n 16) as [Hlt|Hge].
  - rewrite Z.shiftl_spec_low by lia. reflexivity.
  - assert (Z.testbit l n = true) as ->; [|apply orb_true_r].
    apply Z.bits_above_log2_neg; [lia|].
    destruct (Z.eq_dec (Z.pred (- l)) 0) as [->|Hne]; [simpl; lia|].
    apply Z.log2_lt_pow2; [lia|].
    apply Z.lt_le_trans with (2 ^ 16); [simpl; lia|]. apply Z.pow_le_mono_r; lia.
Qed.

Lemma word_value h l : 0 <= h <= 255 -> 0 <= l <= 255 -> word h l = h * 256 + l.
Proof.
  intros Hh Hl. unfold word. rewrite lor_shiftl_low by (simpl; lia).
  div_mod_lia.
Qed.

Lemma makeLong_value hi lo :
  is_int hi -> is_int lo ->
  makeLong hi lo = if lo <? 0 then lo else hi * 65536 + lo.
Proof.
  intros Hhi Hlo. unfold makeLong.
  rewrite Z.shiftl_mul_pow2 by lia.
  rewrite (to_long_id (hi * 2 ^ 16)) by div_mod_lia.
  rewrite <- Z.shiftl_mul_pow2 by lia.
  destruct (Z.ltb_spec lo 0).
  - rewrite lor_shiftl_negative by div_mod_lia. apply to_long_id. div_mod_lia.
  - rewrite lor_shiftl_low by div_mod_lia. apply to_long_id. div_mod_lia.
Qed.

(** What [loadFromEeprom] makes of the four bytes of [v]. *)
Lemma makeLong_of_big_endian v :
  is_long v ->
  makeLong (to_int (word (byte_at 3 v) (byte_at 2 v)))
           (to_int (word (byte_at 1 v) (byte_at 0 v))) = reloaded v.
Proof.
  intros Hv. rewrite makeLong_value by apply to_int_is_int.
  rewrite !word_value by apply byte_at_range.
  unfold reloaded. rewrite testbit_15. unfold byte_at.
  destruct (Z.ltb_spec (to_int ((to_ulong v / 2 ^ (8 * 1)) mod 256 * 256
                                + (to_ulong v / 2 ^ (8 * 0)) mod 256)) 0) as [Hneg|Hpos];
    destruct (Z.leb_spec 32768 (v mod 65536)) as [Hset|Hclr]; div_mod_lia.
Qed.

(** ** The persistent store *)

(** Running a procedure on a board given by its fields: unfold the monad,
    the collaborators and the field updates, nothing else. *)
Ltac run_board :=
  cbv [bind ret get put exec eval fst snd
       log with_vars with_eeprom with_pins next_read next_poll
       vars eeprom pins levels reads ir polls trace
       learnButtonState learnModeEnabled workLedState irCodeData irresult
       set_learnButtonState set_learnModeEnabled set_workLedState
       set_irCodeData set_irresult press
       pinModeOutput digitalRead digitalWrite delay EEPROM_read EEPROM_write
       irrecv_enableIRIn irrecv_decode irrecv_resume after_reads].

Lemma int_add_0_1 : int_add 0 1 = 1.
Proof. reflexivity. Qed.

Lemma int_add_1_1 : int_add 1 1 = 2.
Proof. reflexivity. Qed.

Lemma int_add_2_1 : int_add 2 1 = 3.
Proof. reflexivity. Qed.

Lemma int_mul_0_2 : int_mul 0 2 = 0.
Proof. reflexivity. Qed.

Lemma int_mul_1_2 : int_mul 1 2 = 2.
Proof. reflexivity. Qed.

Lemma int_add_offset address k :
  is_int address -> address + 3 <= INT_MAX -> 0 <= k <= 3 ->
  int_add address k = address + k.
Proof. intros Ha Hb Hk. apply int_add_id. unfold is_int, INT_MIN, INT_MAX in *. lia. Qed.

Lemma saveToEeprom_run v address b :
  is_int address -> address + 3 <= INT_MAX ->
  saveToEeprom v address b =
  (tt, mkBoard (vars b) (write4 address (big_endian v) (eeprom b)) (pins b)
               (levels b) (reads b) (ir b) (polls b)
               (trace b ++ [EepromWrite address (byte_at 3 v);
                            EepromWrite (address + 1) (byte_at 2 v);
                            EepromWrite (address + 2) (byte_at 1 v);
                            EepromWrite (address + 3) (byte_at 0 v)])).
Proof.
  intros Ha Hb. destruct b as [s e p l r i q t].
  unfold saveToEeprom. cbn [for_loop].
  rewrite int_add_0_1, int_mul_0_2, int_mul_1_2.
  rewrite (int_add_offset address 0), (int_add_offset address 2) by (assumption || lia).
  rewrite Z.add_0_r.
  rewrite (int_add_offset address 1) by (assumption || lia).
  rewrite (int_add_id (address + 2) 1) by (unfold is_int, INT_MIN, INT_MAX in *; lia).
  change (Z.to_nat 0) with 0%nat. change (Z.to_nat 1) with 1%nat.
  cbn [lookup_total list_lookup_total].
  run_board.
  rewrite saved_byte_3, saved_byte_2, saved_byte_1, saved_byte_0.
  unfold write4, big_endian. cbn [lookup_total list_lookup_total].
  rewrite <- !app_assoc, <- !Z.add_assoc. reflexivity.
Qed.

Lemma loadFromEeprom_run address b :
  is_int address -> address + 3 <= INT_MAX ->
  loadFromEeprom address b =
  (makeLong (to_int (word (cell (eeprom b) address) (cell (eeprom b) (address + 1))))
            (to_int (word (cell (eeprom b) (address + 2)) (cell (eeprom b) (address + 3)))),
   mkBoard (vars b) (eeprom b) (pins b) (levels b) (reads b) (ir b) (polls b)
           (trace b ++ [EepromRead address (cell (eeprom b) address);
                        EepromRead (address + 1) (cell (eeprom b) (address + 1));
                        EepromRead (address + 2) (cell (eeprom b) (address + 2));
                        EepromRead (address + 3) (cell (eeprom b) (address + 3))])).
Proof.
  intros Ha Hb. destruct b as [s e p l r i q t].
  unfold loadFromEeprom. cbn [for_loop].
  rewrite int_add_0_1, int_add_1_1, int_add_2_1.
  rewrite (int_add_offset address 0), (int_add_offset address 1),
    (int_add_offset address 2), (int_add_offset address 3) by (assumption || lia).
  rewrite Z.add_0_r.
  change (Z.to_nat 0) with 0%nat. change (Z.to_nat 1) with 1%nat.
  change (Z.to_nat 2) with 2%nat. change (Z.to_nat 3) with 3%nat.
  run_board.
  cbn [insert list_insert lookup_total list_lookup_total].
  rewrite <- !app_assoc. reflexivity.
Qed.

Lemma cell_insert_eq store a x : cell (<[a := x]> store) a = to_uint8 x.
Proof. unfold cell. now rewrite lookup_insert_eq. Qed.

Lemma byte_at_uint8 k v : to_uint8 (byte_at k v) = byte_at k v.
Proof. pose proof (byte_at_range k v). div_mod_lia. Qed.

Lemma cell_insert_ne store a a' x : a <> a' -> cell (<[a := x]> store) a' = cell store a'.
Proof. intros H. unfold cell. now rewrite lookup_insert_ne. Qed.

Lemma stored_at_write4 store address v :
  stored_at (write4 address (big_endian v) store) address = big_endian v.
Proof.
  unfold stored_at, write4, big_endian. cbn [lookup_total list_lookup_total].
  repeat f_equal.
  - rewrite !cell_insert_ne by lia. rewrite cell_insert_eq. apply byte_at_uint8.
  - rewrite !cell_insert_ne by lia. rewrite cell_insert_eq. apply byte_at_uint8.
  - rewrite !cell_insert_ne by lia. rewrite cell_insert_eq. apply byte_at_uint8.
  - rewrite cell_insert_eq. apply byte_at_uint8.
Qed.

Lemma write4_elsewhere store address bytes a :
  a < address \/ address + 3 < a ->
  write4 address bytes store !! a = store !! a.
Proof. intros H. unfold write4. rewrite !lookup_insert_ne by lia. reflexivity. Qed.

(** What the sketch reads back after it saved [v]. *)
Lemma load_after_save v address b :
  is_long v -> is_int address -> address + 3 <= INT_MAX ->
  eval (loadFromEeprom address) (exec (saveToEeprom v address) b) = reloaded v.
Proof.
  intros Hv Ha Hb. unfold exec, eval.
  rewrite saveToEeprom_run by assumption. cbn [snd].
  rewrite loadFromEeprom_run by assumption. cbn [fst eeprom].
  pose proof (stored_at_write4 (eeprom b) address v) as E.
  unfold stored_at in E. unfold big_endian at 5 in E.
  injection E as -> -> -> ->.
  now apply makeLong_of_big_endian.
Qed.

(** The round trip succeeds exactly on the values whose bit 15 is clear or
    whose upper word is all ones. *)
Lemma round_trip_iff v :
  is_long v -> reloaded v = v <-> (Z.testbit v 15 = false \/ -32768 <= v < 0).
Proof.
  intros Hv. unfold reloaded. rewrite testbit_15.
  destruct (Z.leb_spec 32768 (v mod 65536)) as [Hset|Hclr].
  - split.
    + intros E. right. div_mod_lia.
    + intros [E|E]; [discriminate|]. div_mod_lia.
  - split; [now left|reflexivity].
Qed.

(** C7: [saveToEeprom v address] makes exactly four EEPROM writes, to
    [address], [address+1], [address+2], [address+3] in that order, with the
    bytes of [v] most significant first; when it returns those four cells
    hold these bytes, every other cell is as before and nothing else of the
    board changed; [loadFromEeprom address] reads the same four addresses in
    the same order and writes nothing. *)
Theorem persisted_layout v address b :
  is_int address -> address + 3 <= INT_MAX ->
  let saved := exec (saveToEeprom v address) b in
  let loaded := exec (loadFromEeprom address) b in
  trace saved = trace b ++ [EepromWrite address (byte_at 3 v);
                            EepromWrite (address + 1) (byte_at 2 v);
                            EepromWrite (address + 2) (byte_at 1 v);
                            EepromWrite (address + 3) (byte_at 0 v)]
  /\ stored_at (eeprom saved) address = big_endian v
  /\ to_ulong v = byte_at 3 v * 2 ^ 24 + byte_at 2 v * 2 ^ 16
                  + byte_at 1 v * 2 ^ 8 + byte_at 0 v
  /\ (forall a, a < address \/ address + 3 < a -> eeprom saved !! a = eeprom b !! a)
  /\ vars saved = vars b /\ pins saved = pins b
  /\ trace loaded = trace b ++ [EepromRead address (cell (eeprom b) address);
                                EepromRead (address + 1) (cell (eeprom b) (address + 1));
                                EepromRead (address + 2) (cell (eeprom b) (address + 2));
                                EepromRead (address + 3) (cell (eeprom b) (address + 3))]
  /\ eeprom loaded = eeprom b.
Proof.
  intros Ha Hb saved loaded. subst saved loaded. unfold exec.
  rewrite saveToEeprom_run, loadFromEeprom_run by assumption.
  cbn [snd vars eeprom pins trace].
  split; [reflexivity|]. split; [apply stored_at_write4|].
  split; [apply big_endian_value|].
  split; [intros a Hne; now apply write4_elsewhere|].
  repeat split.
Qed.

(** C1: the round trip is lost on a value whose bit 15 is set under an
    upper word that is not all ones.  Saving 0x00008000 at the sketch's
    address and loading it back yields 0xFFFF8000 (-32768 as a [long]): the
    [int] low word is widened with its sign inside [makeLong]. *)
Theorem round_trip_loses_upper_word b :
  eval (loadFromEeprom IR_CODE_DATA_ADDRESS)
       (exec (saveToEeprom 32768 IR_CODE_DATA_ADDRESS) b) = -32768
  /\ to_ulong (-32768) = 4294934528
  /\ -32768 <> 32768.
Proof.
  split; [|split; [reflexivity|discriminate]].
  rewrite load_after_save; [reflexivity| | |]; unfold_cint; unfold IR_CODE_DATA_ADDRESS; lia.
Qed.

(** ** The command state machine *)

Lemma eeprom_writes_app t1 t2 :
  eeprom_writes (t1 ++ t2) = eeprom_writes t1 ++ eeprom_writes t2.
Proof.
  induction t1 as [|e t1 IH]; [reflexivity|].
  destruct e; cbn [app eeprom_writes]; rewrite IH; reflexivity.
Qed.

Lemma IR_CODE_DATA_ADDRESS_ok :
  is_int IR_CODE_DATA_ADDRESS /\ IR_CODE_DATA_ADDRESS + 3 <= INT_MAX.
Proof. unfold is_int, IR_CODE_DATA_ADDRESS, INT_MIN, INT_MAX. lia. Qed.

Lemma processCode_learn v b :
  learnModeEnabled (vars b) = true ->
  processCode v b =
  (tt, mkBoard (set_learnModeEnabled false (set_irCodeData v (vars b)))
               (write4 IR_CODE_DATA_ADDRESS (big_endian v) (eeprom b)) (pins b)
               (levels b) (reads b) (ir b) (polls b)
               (trace b ++ [EepromWrite IR_CODE_DATA_ADDRESS (byte_at 3 v);
                            EepromWrite (IR_CODE_DATA_ADDRESS + 1) (byte_at 2 v);
                            EepromWrite (IR_CODE_DATA_ADDRESS + 2) (byte_at 1 v);
                            EepromWrite (IR_CODE_DATA_ADDRESS + 3) (byte_at 0 v);
                            Delay 100])).
Proof.
  intros Hmode. destruct IR_CODE_DATA_ADDRESS_ok as [Ha Hb].
  destruct b as [[button mode led code result] e p l r i q t].
  cbn in Hmode. subst mode.
  unfold processCode. run_board.
  rewrite saveToEeprom_run by assumption. run_board.
  rewrite <- app_assoc. reflexivity.
Qed.

Lemma processCode_match v b :
  learnModeEnabled (vars b) = false -> irCodeData (vars b) = v ->
  processCode v b =
  (tt, mkBoard (set_workLedState (negb (workLedState (vars b))) (vars b))
               (eeprom b) (pins b) (levels b) (reads b) (ir b) (polls b)
               (trace b ++ [Delay 100])).
Proof.
  intros Hmode Hcode.
  destruct b as [[button mode led code result] e p l r i q t].
  cbn in Hmode, Hcode. subst mode code.
  unfold processCode. run_board. rewrite Z.eqb_refl. reflexivity.
Qed.

Lemma processCode_mismatch v b :
  learnModeEnabled (vars b) = false -> irCodeData (vars b) <> v ->
  processCode v b = (tt, b).
Proof.
  intros Hmode Hcode.
  destruct b as [[button mode led code result] e p l r i q t].
  cbn in Hmode, Hcode. subst mode. apply Z.eqb_neq in Hcode.
  unfold processCode. run_board. rewrite Hcode. reflexivity.
Qed.

(** C2: a code that reaches [processCode] while learn mode is enabled
    becomes the trained code, is written to the store (one [saveToEeprom]:
    the four cells at the configured address hold its bytes, most
    significant first), learn mode is switched off, and the output state,
    the output pins and the recorded button state stay as they were. *)
Theorem learn_commit v b :
  learnModeEnabled (vars b) = true ->
  let b' := exec (processCode v) b in
  irCodeData (vars b') = v
  /\ stored_at (eeprom b') IR_CODE_DATA_ADDRESS = big_endian v
  /\ trace b' = trace b ++ [EepromWrite IR_CODE_DATA_ADDRESS (byte_at 3 v);
                            EepromWrite (IR_CODE_DATA_ADDRESS + 1) (byte_at 2 v);
                            EepromWrite (IR_CODE_DATA_ADDRESS + 2) (byte_at 1 v);
                            EepromWrite (IR_CODE_DATA_ADDRESS + 3) (byte_at 0 v);
                            Delay 100]
  /\ learnModeEnabled (vars b') = false
  /\ workLedState (vars b') = workLedState (vars b)
  /\ learnButtonState (vars b') = learnButtonState (vars b)
  /\ pins b' = pins b.
Proof.
  intros Hmode b'. subst b'. unfold exec. rewrite processCode_learn by assumption.
  cbn [snd vars eeprom pins trace].
  split; [reflexivity|]. split; [apply stored_at_write4|]. repeat split.
Qed.

(** C3: when learn mode is disabled, a code equal to the trained code flips
    the output state once and changes nothing else of the sketch's state or
    of the store; a code different from the trained code leaves the whole
    board as it was, so only the trained code ever changes the output
    state. *)
Theorem normal_mode_match_or_ignore v b :
  learnModeEnabled (vars b) = false ->
  let b' := exec (processCode v) b in
  (v = irCodeData (vars b) ->
     workLedState (vars b') = negb (workLedState (vars b))
     /\ irCodeData (vars b') = irCodeData (vars b)
     /\ learnModeEnabled (vars b') = false
     /\ learnButtonState (vars b') = learnButtonState (vars b)
     /\ eeprom b' = eeprom b /\ pins b' = pins b
     /\ trace b' = trace b ++ [Delay 100])
  /\ (v <> irCodeData (vars b) -> b' = b)
  /\ (workLedState (vars b') <> workLedState (vars b) -> v = irCodeData (vars b)).
Proof.
  intros Hmode b'. subst b'. unfold exec. split; [|split].
  - intros ->. rewrite processCode_match by auto. cbn. rewrite Hmode. repeat split.
  - intros Hne. rewrite processCode_mismatch by auto. reflexivity.
  - intros Hled. destruct (Z.eq_dec v (irCodeData (vars b))) as [E|Hne]; [exact E|].
    rewrite processCode_mismatch in Hled by auto. now destruct Hled.
Qed.

(** ** The debounced button *)

Lemma getButtonState_run pin pullUp b :
  let l0 := levels b pin (reads b) in
  let l1 := levels b pin (1 + reads b) in
  let l2 := levels b pin (2 + reads b) in
  let l3 := levels b pin (3 + reads b) in
  exists k t,
    getButtonState pin pullUp b =
      (if eqb l1 l0 && eqb l2 l0 && eqb l3 l0
       then Z.b2z (xorb pullUp l0) else -1,
       after_reads b k t)
    /\ eeprom_writes t = [].
Proof.
  intros l0 l1 l2 l3. subst l0 l1 l2 l3.
  destruct b as [s e p l r i q t].
  unfold getButtonState. cbn [getButtonState_rounds]. run_board.
  cbn [Nat.add].
  destruct (l pin r), (l pin (S r)); cbn [Z.b2z Z.eqb Pos.eqb negb eqb andb];
    try (exists 2%nat; eexists; rewrite <- !app_assoc; split; reflexivity);
    destruct (l pin (S (S r))); cbn [Z.b2z Z.eqb Pos.eqb negb eqb andb];
    try (exists 3%nat; eexists; rewrite <- !app_assoc; split; reflexivity);
    destruct (l pin (S (S (S r)))), pullUp;
    cbn [Z.b2z Z.eqb Pos.eqb negb eqb andb xorb of_boolean Z.lxor Pos.lxor];
    exists 4%nat; eexists; rewrite <- !app_assoc; split; reflexivity.
Qed.

Lemma getButtonState_sample pin pullUp b :
  exists k t,
    getButtonState pin pullUp b =
      (match button_sample b pin with
       | Some level => Z.b2z (xorb pullUp level)
       | None => -1
       end, after_reads b k t)
    /\ eeprom_writes t = [].
Proof.
  destruct (getButtonState_run pin pullUp b) as (k & t & E & Hw).
  exists k, t. split; [|exact Hw]. rewrite E. unfold button_sample.
  destruct (eqb _ _ && eqb _ _ && eqb _ _); reflexivity.
Qed.

(** C5: when the first read of the pin and the three re-reads agree,
    [getButtonState] returns the stable level with the polarity rule applied
    ([pullUp ^ level]; with a pull-up a LOW pin is 1, pressed, and a HIGH pin
    is 0, released); when a re-read differs from the first read it returns
    -1. *)
Theorem debounce pin pullUp b :
  let first := levels b pin (reads b) in
  let again k := levels b pin (k + reads b)%nat in
  (again 1%nat = first -> again 2%nat = first -> again 3%nat = first ->
     eval (getButtonState pin pullUp) b = Z.lxor (of_boolean pullUp) (Z.b2z first)
     /\ (pullUp = true -> first = false -> eval (getButtonState pin pullUp) b = 1)
     /\ (pullUp = true -> first = true -> eval (getButtonState pin pullUp) b = 0))
  /\ (again 1%nat <> first \/ again 2%nat <> first \/ again 3%nat <> first ->
     eval (getButtonState pin pullUp) b = -1).
Proof.
  intros first again. subst first again. cbv beta.
  destruct (getButtonState_run pin pullUp b) as (k & t & E & _).
  unfold eval. rewrite E. cbn [fst]. clear E. split.
  - intros -> -> ->. rewrite !eqb_reflx. cbn [andb].
    split; [|split].
    + destruct pullUp, (levels b pin (reads b)); reflexivity.
    + intros -> ->. reflexivity.
    + intros -> ->. reflexivity.
  - intros H.
    destruct (levels b pin (reads b)), (levels b pin (1 + reads b)),
      (levels b pin (2 + reads b)), (levels b pin (3 + reads b));
      cbn; try reflexivity; exfalso; destruct H as [H|[H|H]]; now apply H.
Qed.

(** ** The learn button *)

Lemma processLearnButton_run b :
  exists k t,
    eeprom_writes t = [] /\
    processLearnButton b =
      (tt, match button_sample b LEARN_BUTTON_PIN with
           | None => after_reads b k t
           | Some level =>
               if eqb (negb level) (learnButtonState (vars b))
               then after_reads b k t
               else with_vars (press (negb level)) (after_reads b k t)
           end).
Proof.
  destruct (getButtonState_sample LEARN_BUTTON_PIN true b) as (k & t & E & Hw).
  exists k, t. split; [exact Hw|].
  unfold processLearnButton, bind at 1. rewrite E. clear E.
  destruct (button_sample b LEARN_BUTTON_PIN) as [level|]; [|reflexivity].
  destruct b as [[button mode led code result] e p l r i q t0].
  destruct level, button; reflexivity.
Qed.

Lemma getButtonState_released b :
  eval (getButtonState LEARN_BUTTON_PIN true) b = 0 <->
  button_sample b LEARN_BUTTON_PIN = Some true.
Proof.
  destruct (getButtonState_sample LEARN_BUTTON_PIN true b) as (k & t & E & _).
  unfold eval. rewrite E. cbn [fst].
  destruct (button_sample b LEARN_BUTTON_PIN) as [[|]|]; cbn; split; intros H;
    try reflexivity; discriminate.
Qed.

Lemma getButtonState_pressed b :
  eval (getButtonState LEARN_BUTTON_PIN true) b = 1 <->
  button_sample b LEARN_BUTTON_PIN = Some false.
Proof.
  destruct (getButtonState_sample LEARN_BUTTON_PIN true b) as (k & t & E & _).
  unfold eval. rewrite E. cbn [fst].
  destruct (button_sample b LEARN_BUTTON_PIN) as [[|]|]; cbn; split; intros H;
    try reflexivity; discriminate.
Qed.

Lemma getButtonState_indeterminate b :
  eval (getButtonState LEARN_BUTTON_PIN true) b = -1 <->
  button_sample b LEARN_BUTTON_PIN = None.
Proof.
  destruct (getButtonState_sample LEARN_BUTTON_PIN true b) as (k & t & E & _).
  unfold eval. rewrite E. cbn [fst].
  destruct (button_sample b LEARN_BUTTON_PIN) as [[|]|]; cbn; split; intros H;
    try reflexivity; discriminate.
Qed.

(** C6: when the debounced sample is Released (0) while learn mode is
    enabled and the button is recorded as pressed, [processLearnButton]
    switches learn mode off and records the release; the trained code, the
    store, the output state, the output pins and the last decoded result are
    untouched and no EEPROM write is made.  When the sample is Indeterminate
    (-1) the sketch's variables, the store and the pins stay exactly as they
    were. *)
Theorem abort_learn b :
  let b' := exec processLearnButton b in
  (learnModeEnabled (vars b) = true -> learnButtonState (vars b) = true ->
   eval (getButtonState LEARN_BUTTON_PIN true) b = 0 ->
     learnModeEnabled (vars b') = false
     /\ learnButtonState (vars b') = false
     /\ irCodeData (vars b') = irCodeData (vars b)
     /\ workLedState (vars b') = workLedState (vars b)
     /\ irresult (vars b') = irresult (vars b)
     /\ eeprom b' = eeprom b /\ pins b' = pins b
     /\ eeprom_writes (trace b') = eeprom_writes (trace b))
  /\ (eval (getButtonState LEARN_BUTTON_PIN true) b = -1 ->
     vars b' = vars b /\ eeprom b' = eeprom b /\ pins b' = pins b
     /\ eeprom_writes (trace b') = eeprom_writes (trace b)).
Proof.
  intros b'. subst b'. unfold exec.
  destruct (processLearnButton_run b) as (k & t & Hw & E). rewrite E. cbn [snd].
  split.
  - intros Hmode Hbutton Hs. apply getButtonState_released in Hs.
    rewrite Hs, Hbutton. cbn.
    rewrite eeprom_writes_app, Hw, app_nil_r. repeat split.
  - intros Hs. apply getButtonState_indeterminate in Hs. rewrite Hs. cbn.
    rewrite eeprom_writes_app, Hw, app_nil_r. repeat split.
Qed.

(** ** The receiver *)

Lemma clear_bit_15 x :
  Z.land x (Z.lnot 32768) = if Z.testbit x 15 then x - 32768 else x.
Proof.
  destruct (Z.testbit x 15) eqn:E.
  - rewrite <- Z.ldiff_land. symmetry. apply Z.sub_nocarry_ldiff.
    apply Z.bits_inj'. intros n Hn. rewrite Z.ldiff_spec, Z.bits_0.
    change 32768 with (2 ^ 15). rewrite Z.pow2_bits_eqb by lia.
    destruct (Z.eqb_spec 15 n) as [<-|Hne]; [now rewrite E|reflexivity].
  - apply Z.bits_inj'. intros n Hn. rewrite Z.land_spec, Z.lnot_spec by lia.
    change 32768 with (2 ^ 15). rewrite Z.pow2_bits_eqb by lia.
    destruct (Z.eqb_spec 15 n) as [<-|Hne]; [now rewrite E|apply andb_true_r].
Qed.

Lemma clear_bit_15_bits x n :
  0 <= n ->
  Z.testbit (Z.land x (Z.lnot 32768)) n = Z.testbit x n && negb (n =? 15).
Proof.
  intros Hn. rewrite Z.land_spec, Z.lnot_spec by lia.
  change 32768 with (2 ^ 15). rewrite Z.pow2_bits_eqb by lia.
  now rewrite (Z.eqb_sym 15 n).
Qed.

Lemma clear_bit_15_to_long x :
  to_long (Z.land (to_long x) (Z.lnot 32768)) = to_long (Z.land x (Z.lnot 32768)).
Proof.
  rewrite !clear_bit_15, !testbit_15.
  destruct (Z.leb_spec 32768 (to_long x mod 65536));
    destruct (Z.leb_spec 32768 (x mod 65536)); div_mod_lia.
Qed.

Lemma clear_bit_15_is_ulong x : is_ulong x -> is_ulong (Z.land x (Z.lnot 32768)).
Proof.
  intros H. rewrite clear_bit_15, testbit_15.
  destruct (Z.leb_spec 32768 (x mod 65536)); div_mod_lia.
Qed.

Lemma clear_bit_15_not_sentinel x : to_ulong (to_long (Z.land x (Z.lnot 32768))) <> 4294967295.
Proof.
  rewrite clear_bit_15, testbit_15.
  destruct (Z.leb_spec 32768 (x mod 65536)); div_mod_lia.
Qed.

Lemma to_ulong_to_long_id x : is_ulong x -> to_ulong (to_long x) = x.
Proof. intros H. div_mod_lia. Qed.

(** The value [processIr] hands to [processCode], if any, for the result
    [r] the receiver delivered. *)
Lemma processIr_run RC6 r b :
  ir b (polls b) = Some r ->
  processIr RC6 b =
  (let value := to_long (IRremote.value r) in
   if 4294967295 =? to_ulong value then irrecv_resume
   else (processCode (if IRremote.decode_type r =? RC6
                      then to_long (Z.land value (Z.lnot 32768))
                      else value) ;; irrecv_resume))
    (exec irrecv_decode b).
Proof.
  intros Hr. unfold processIr, bind at 1, exec, irrecv_decode. rewrite Hr.
  cbn [snd]. unfold bind at 1, get at 1. cbn [vars with_vars log set_irresult irresult].
  cbv zeta.
  destruct (4294967295 =? to_ulong (to_long (IRremote.value r))); cbn [negb].
  - reflexivity.
  - reflexivity.
Qed.

Lemma processIr_idle RC6 b :
  ir b (polls b) = None -> processIr RC6 b = (tt, exec irrecv_decode b).
Proof.
  intros Hr. unfold processIr, bind, exec, irrecv_decode. rewrite Hr. reflexivity.
Qed.

Lemma processIr_normalize RC6 r b :
  ir b (polls b) = Some r -> is_ulong (IRremote.value r) ->
  processIr RC6 b =
  match normalize RC6 r with
  | None => irrecv_resume
  | Some c => (processCode (to_long c) ;; irrecv_resume)
  end (exec irrecv_decode b).
Proof.
  intros Hr Hu. rewrite (processIr_run RC6 r b Hr). cbv zeta. unfold normalize.
  rewrite to_ulong_to_long_id by assumption. rewrite Z.eqb_sym.
  destruct (IRremote.value r =? 4294967295); [reflexivity|].
  destruct (IRremote.decode_type r =? RC6); [|reflexivity].
  now rewrite clear_bit_15_to_long.
Qed.

(** C4: for a result [r] the receiver delivers, [processIr] behaves as the
    normalizer says.  A raw value 0xFFFFFFFF never reaches [processCode],
    whatever the tag: only the receiver is resumed, and the trained code,
    the mode, the output state and the store are as before.  Under the RC6
    tag [processCode] receives the raw value with bit 15 cleared and every
    other bit kept; under any other tag it receives the raw value. *)
Theorem processIr_normalizes RC6 r b :
  ir b (polls b) = Some r -> is_ulong (IRremote.value r) ->
  let decoded := exec irrecv_decode b in
  let b' := exec (processIr RC6) b in
  b' = exec (match normalize RC6 r with
             | None => irrecv_resume
             | Some c => processCode (to_long c) ;; irrecv_resume
             end) decoded
  /\ (IRremote.value r = 4294967295 ->
      normalize RC6 r = None
      /\ b' = exec irrecv_resume decoded
      /\ irCodeData (vars b') = irCodeData (vars b)
      /\ learnModeEnabled (vars b') = learnModeEnabled (vars b)
      /\ workLedState (vars b') = workLedState (vars b)
      /\ eeprom b' = eeprom b)
  /\ (IRremote.value r <> 4294967295 -> IRremote.decode_type r = RC6 ->
      let c := Z.land (IRremote.value r) (Z.lnot 32768) in
      normalize RC6 r = Some c
      /\ b' = exec (processCode (to_long c) ;; irrecv_resume) decoded
      /\ to_ulong (to_long c) = c
      /\ forall n, 0 <= n ->
           Z.testbit c n = if n =? 15 then false else Z.testbit (IRremote.value r) n)
  /\ (IRremote.value r <> 4294967295 -> IRremote.decode_type r <> RC6 ->
      normalize RC6 r = Some (IRremote.value r)
      /\ b' = exec (processCode (to_long (IRremote.value r)) ;; irrecv_resume) decoded
      /\ to_ulong (to_long (IRremote.value r)) = IRremote.value r).
Proof.
  intros Hr Hu decoded b'.
  assert (b' = exec (match normalize RC6 r with
                     | None => irrecv_resume
                     | Some c => processCode (to_long c) ;; irrecv_resume
                     end) decoded) as E.
  { subst b' decoded. unfold exec at 1. now rewrite (processIr_normalize RC6 r b). }
  split; [exact E|]. split; [|split].
  - intros Hv.
    assert (normalize RC6 r = None) as Hn.
    { unfold normalize. now rewrite Hv. }
    rewrite Hn in E. split; [exact Hn|]. split; [exact E|].
    rewrite E. subst decoded. unfold exec, irrecv_resume, irrecv_decode.
    rewrite Hr. cbn. repeat split.
  - intros Hv Htag c.
    assert (normalize RC6 r = Some c) as Hn.
    { unfold normalize. apply Z.eqb_neq in Hv. rewrite Hv.
      apply Z.eqb_eq in Htag. now rewrite Htag. }
    rewrite Hn in E. split; [exact Hn|]. split; [exact E|]. split.
    + apply to_ulong_to_long_id. now apply clear_bit_15_is_ulong.
    + intros n Hn'. subst c. rewrite clear_bit_15_bits by assumption.
      destruct (n =? 15); [apply andb_false_r|apply andb_true_r].
  - intros Hv Htag.
    assert (normalize RC6 r = Some (IRremote.value r)) as Hn.
    { unfold normalize. apply Z.eqb_neq in Hv. rewrite Hv.
      apply Z.eqb_neq in Htag. now rewrite Htag. }
    rewrite Hn in E. split; [exact Hn|]. split; [exact E|].
    now apply to_ulong_to_long_id.
Qed.

(** ** One pass of the loop *)

Lemma exec_bind {A B : Type} (m : M A) (k : M B) b :
  exec (m ;; k) b = exec k (exec m b).
Proof. unfold exec, bind. destruct (m b). reflexivity. Qed.

Lemma store_untouched_trans b1 b2 b3 :
  store_untouched b1 b2 -> store_untouched b2 b3 -> store_untouched b1 b3.
Proof. intros (A1 & A2 & A3) (B1 & B2 & B3). repeat split; congruence. Qed.

Lemma store_committed_after v b1 b2 b3 :
  store_untouched b1 b2 -> store_committed v b2 b3 -> store_committed v b1 b3.
Proof. intros (A1 & A2 & A3) (B1 & B2 & B3). repeat split; congruence. Qed.

Lemma delivered_not_sentinel RC6 b v :
  delivered RC6 b = Some v -> to_ulong v <> 4294967295 /\ v <> -1.
Proof.
  unfold delivered. destruct (ir b (polls b)) as [r|]; [|discriminate]. cbv zeta.
  destruct (Z.eqb_spec 4294967295 (to_ulong (to_long (IRremote.value r)))) as [E|Hne];
    [discriminate|].
  assert (forall x, to_ulong x <> 4294967295 -> x <> -1) as Hminus
    by (intros x Hx ->; now apply Hx).
  destruct (IRremote.decode_type r =? RC6); intros [= <-].
  - split; [|apply Hminus]; apply clear_bit_15_not_sentinel.
  - split; [|apply Hminus]; congruence.
Qed.

Lemma processIr_delivered RC6 b :
  exec (processIr RC6) b =
  match delivered RC6 b with
  | Some v => exec (processCode v ;; irrecv_resume) (exec irrecv_decode b)
  | None =>
      match ir b (polls b) with
      | Some _ => exec irrecv_resume (exec irrecv_decode b)
      | None => exec irrecv_decode b
      end
  end.
Proof.
  unfold delivered. destruct (ir b (polls b)) as [r|] eqn:Hr.
  - unfold exec at 1. rewrite (processIr_run RC6 r b Hr). cbv zeta.
    destruct (4294967295 =? to_ulong (to_long (IRremote.value r))); reflexivity.
  - unfold exec at 1. now rewrite processIr_idle.
Qed.

(** What a poll of the receiver does to the sketch: nothing, a toggle of the
    output on the trained code, or a commit in learn mode. *)
Lemma processIr_cases RC6 b :
  let b' := exec (processIr RC6) b in
  levels b' = levels b /\ ir b' = ir b /\ pins b' = pins b
  /\ learnButtonState (vars b') = learnButtonState (vars b)
  /\ ((store_untouched b b'
       /\ workLedState (vars b') = workLedState (vars b)
       /\ learnModeEnabled (vars b') = learnModeEnabled (vars b))
      \/ (learnModeEnabled (vars b) = false
          /\ delivered RC6 b = Some (irCodeData (vars b))
          /\ store_untouched b b'
          /\ workLedState (vars b') = negb (workLedState (vars b))
          /\ learnModeEnabled (vars b') = false)
      \/ (learnModeEnabled (vars b) = true
          /\ (exists v, delivered RC6 b = Some v /\ store_committed v b b')
          /\ workLedState (vars b') = workLedState (vars b)
          /\ learnModeEnabled (vars b') = false)).
Proof.
  intros b'. subst b'. rewrite processIr_delivered.
  unfold store_untouched, store_committed.
  destruct (delivered RC6 b) as [v|] eqn:Hd.
  - unfold delivered in Hd. destruct (ir b (polls b)) as [res|] eqn:Hr; [|discriminate].
    clear Hd. rewrite exec_bind.
    destruct b as [[button mode led code result] e p l r i q t].
    cbn [ir polls] in Hr.
    unfold exec, irrecv_decode. cbn [ir polls]. rewrite Hr. cbn [snd].
    destruct mode.
    + rewrite processCode_learn by reflexivity. run_board.
      rewrite !eeprom_writes_app. cbn [eeprom_writes]. rewrite !app_nil_r.
      repeat split. right. right. repeat split. exists v. repeat split.
    + destruct (Z.eq_dec code v) as [E|Hne].
      * rewrite processCode_match by (cbn; auto). run_board.
        rewrite !eeprom_writes_app. cbn [eeprom_writes]. rewrite !app_nil_r.
        repeat split. right. left. rewrite E. repeat split.
      * rewrite processCode_mismatch by (cbn; auto). run_board.
        rewrite !eeprom_writes_app. cbn [eeprom_writes]. rewrite !app_nil_r.
        repeat split. left. repeat split.
  - destruct b as [[button mode led code result] e p l r i q t].
    unfold exec, irrecv_decode. cbn [ir polls].
    destruct (i q) as [res|]; run_board; rewrite !eeprom_writes_app;
      cbn [eeprom_writes]; rewrite !app_nil_r; repeat split; left; repeat split.
Qed.

(** What a sample of the learn button does to the sketch: nothing, or both
    button flags take the sampled state. *)
Lemma processLearnButton_cases b :
  let b' := exec processLearnButton b in
  levels b' = levels b /\ ir b' = ir b /\ polls b' = polls b /\ pins b' = pins b
  /\ store_untouched b b'
  /\ workLedState (vars b') = workLedState (vars b)
  /\ irresult (vars b') = irresult (vars b)
  /\ (vars b' = vars b
      \/ exists pressed,
           eval (getButtonState LEARN_BUTTON_PIN true) b = Z.b2z pressed
           /\ learnButtonState (vars b) = negb pressed
           /\ vars b' = press pressed (vars b)).
Proof.
  intros b'. subst b'. unfold exec at 1 2 3 4 5 6 7 8 9.
  destruct (processLearnButton_run b) as (k & t & Hw & E). rewrite E. cbn [snd].
  destruct (button_sample b LEARN_BUTTON_PIN) as [level|] eqn:Hs.
  - destruct (eqb (negb level) (learnButtonState (vars b))) eqn:Hb.
    + cbn. unfold store_untouched. cbn.
      rewrite eeprom_writes_app, Hw, app_nil_r. repeat split. now left.
    + cbn. unfold store_untouched. cbn.
      rewrite eeprom_writes_app, Hw, app_nil_r. repeat split. right.
      exists (negb level). repeat split.
      * destruct level.
        -- now apply getButtonState_released.
        -- now apply getButtonState_pressed.
      * destruct level, (learnButtonState (vars b)); try reflexivity; discriminate.
  - cbn. unfold store_untouched. cbn.
    rewrite eeprom_writes_app, Hw, app_nil_r. repeat split. now left.
Qed.

Lemma processLearnLed_run b :
  exec processLearnLed b =
  log (DigitalWrite LEARN_LED_PIN (learnModeEnabled (vars b)))
      (with_pins (insert LEARN_LED_PIN (learnModeEnabled (vars b))) b).
Proof. reflexivity. Qed.

Lemma processWorkLed_run b :
  exec processWorkLed b =
  log (DigitalWrite WORK_LED_PIN (workLedState (vars b)))
      (with_pins (insert WORK_LED_PIN (workLedState (vars b))) b).
Proof. reflexivity. Qed.

(** The three procedures a pass runs before it polls the receiver. *)
Lemma before_processIr b :
  let sampled := exec processLearnButton b in
  let b' := exec (processLearnButton ;; processLearnLed ;; processWorkLed) b in
  vars b' = vars sampled /\ levels b' = levels b /\ ir b' = ir b
  /\ polls b' = polls b /\ store_untouched b b'.
Proof.
  intros sampled b'. subst sampled b'. rewrite !exec_bind.
  rewrite processWorkLed_run, processLearnLed_run.
  destruct (processLearnButton_cases b) as (Hl & Hi & Hp & _ & (S1 & S2 & S3) & _).
  unfold store_untouched. cbn. rewrite !eeprom_writes_app. cbn. rewrite !app_nil_r.
  repeat split; assumption.
Qed.

Lemma delivered_ext RC6 b b' :
  ir b' = ir b -> polls b' = polls b -> delivered RC6 b' = delivered RC6 b.
Proof. intros Hi Hp. unfold delivered. now rewrite Hi, Hp. Qed.

Lemma loop_split RC6 b :
  exec (loop RC6) b =
  exec (processIr RC6) (exec (processLearnButton ;; processLearnLed ;; processWorkLed) b).
Proof. unfold loop. now rewrite !exec_bind. Qed.

(** What one pass of [loop] does to the trained code, the store, the output
    state and the mode. *)
Lemma loop_cases RC6 b :
  let sampled := exec processLearnButton b in
  let b' := exec (loop RC6) b in
  levels b' = levels b /\ ir b' = ir b
  /\ learnButtonState (vars b') = learnButtonState (vars sampled)
  /\ ((store_untouched b b'
       /\ workLedState (vars b') = workLedState (vars b)
       /\ learnModeEnabled (vars b') = learnModeEnabled (vars sampled))
      \/ (learnModeEnabled (vars sampled) = false
          /\ delivered RC6 b = Some (irCodeData (vars b))
          /\ store_untouched b b'
          /\ workLedState (vars b') = negb (workLedState (vars b))
          /\ learnModeEnabled (vars b') = false)
      \/ (learnModeEnabled (vars sampled) = true
          /\ (exists v, delivered RC6 b = Some v /\ store_committed v b b')
          /\ workLedState (vars b') = workLedState (vars b)
          /\ learnModeEnabled (vars b') = false)).
Proof.
  intros sampled b'. subst sampled b'. rewrite loop_split.
  destruct (before_processIr b) as (Hv & Hl & Hi & Hp & Hs).
  destruct (processLearnButton_cases b) as (_ & _ & _ & _ & _ & Hw & _).
  set (p := exec (processLearnButton ;; processLearnLed ;; processWorkLed) b) in *.
  destruct (processIr_cases RC6 p) as (Hl' & Hi' & _ & Hb' & Hcases).
  rewrite (delivered_ext RC6 b p Hi Hp) in Hcases.
  assert (irCodeData (vars p) = irCodeData (vars b)) as Hcode by apply Hs.
  rewrite Hcode in Hcases. rewrite Hv in Hcases, Hb'.
  split; [congruence|]. split; [congruence|]. split; [exact Hb'|].
  destruct Hcases as [(U & W & L)|[(L0 & D & U & W & L)|(L0 & (v & D & C) & W & L)]].
  - left. split; [eapply store_untouched_trans; eassumption|]. split; congruence.
  - right. left. split; [exact L0|]. split; [exact D|].
    split; [eapply store_untouched_trans; eassumption|]. split; congruence.
  - right. right. split; [exact L0|]. split.
    + exists v. split; [exact D|]. eapply store_committed_after; eassumption.
    + split; congruence.
Qed.

(** ** Any number of passes *)

Lemma loops_succ RC6 n b :
  exec (loops RC6 (S n)) b = exec (loops RC6 n) (exec (loop RC6) b).
Proof. cbn [loops]. apply exec_bind. Qed.

Lemma polls_of_processIr_succ RC6 n b :
  exec (polls_of_processIr RC6 (S n)) b =
  exec (polls_of_processIr RC6 n) (exec (processIr RC6) b).
Proof. cbn [polls_of_processIr]. apply exec_bind. Qed.

Lemma last_nonempty {A : Type} (l : list A) : forall (x d d' : A),
  List.last (x :: l) d = List.last (x :: l) d'.
Proof.
  induction l as [|y l IH]; intros x d d'; [reflexivity|].
  change (List.last (y :: l) d = List.last (y :: l) d'). apply IH.
Qed.

Lemma last_cons {A : Type} (x d : A) (l : list A) :
  List.last (x :: l) d = List.last l x.
Proof.
  destruct l as [|y l]; [reflexivity|].
  change (List.last (y :: l) d = List.last (y :: l) x). apply last_nonempty.
Qed.

(** The trained code is always the last code saved, the store holds the
    saves in turn, and the EEPROM writes logged are those saves and no
    others. *)
Lemma loops_history RC6 n : forall b,
  exists learned : list Z,
    let b' := exec (loops RC6 n) b in
    irCodeData (vars b') = List.last learned (irCodeData (vars b))
    /\ eeprom b' = saved_in_turn learned (eeprom b)
    /\ eeprom_writes (trace b') = eeprom_writes (trace b) ++ writes_in_turn learned
    /\ (length learned <= n)%nat.
Proof.
  induction n as [|n IH]; intros b.
  - exists []. cbn. rewrite app_nil_r. repeat split. lia.
  - destruct (IH (exec (loop RC6) b)) as (rest & Hc & He & Hw & Hlen).
    cbv zeta in *. rewrite loops_succ.
    destruct (loop_cases RC6 b) as (_ & _ & _ & Hcases).
    destruct Hcases as [((U1 & U2 & U3) & _)|[(_ & _ & (U1 & U2 & U3) & _)
                                             |(_ & (v & _ & C1 & C2 & C3) & _)]].
    + exists rest. rewrite Hc, He, Hw, U1, U2, U3. repeat split. lia.
    + exists rest. rewrite Hc, He, Hw, U1, U2, U3. repeat split. lia.
    + exists (v :: rest). rewrite Hc, He, Hw, C1, C2, C3.
      rewrite last_cons. unfold writes_in_turn. cbn [List.map List.concat].
      fold (writes_in_turn rest). rewrite <- app_assoc.
      repeat split. cbn [length]. lia.
Qed.

(** C8: within a pass of [loop] nothing before [processIr] touches the
    trained code or the store.  Over the whole pass either the trained
    code, the store and the logged EEPROM writes are as before, or learn
    mode was enabled when a code was handed to [processCode]: then the
    trained code is that code, the store took exactly one [saveToEeprom] of
    it (four writes, no others) and learn mode is off.  Over any number of
    passes the logged EEPROM writes are the saves of the codes learned, in
    turn, and the trained code is the last of them. *)
Theorem trained_code_write_through RC6 b :
  let polled := exec (processLearnButton ;; processLearnLed ;; processWorkLed) b in
  let b' := exec (loop RC6) b in
  (irCodeData (vars polled) = irCodeData (vars b)
   /\ eeprom polled = eeprom b
   /\ eeprom_writes (trace polled) = eeprom_writes (trace b))
  /\ ((irCodeData (vars b') = irCodeData (vars b)
       /\ eeprom b' = eeprom b
       /\ eeprom_writes (trace b') = eeprom_writes (trace b))
      \/ (learnModeEnabled (vars polled) = true
          /\ delivered RC6 polled = Some (irCodeData (vars b'))
          /\ b' = exec (processCode (irCodeData (vars b')) ;; irrecv_resume)
                       (exec irrecv_decode polled)
          /\ eeprom b' = write4 IR_CODE_DATA_ADDRESS
                                (big_endian (irCodeData (vars b'))) (eeprom b)
          /\ eeprom_writes (trace b') =
               eeprom_writes (trace b)
               ++ save_writes (irCodeData (vars b')) IR_CODE_DATA_ADDRESS
          /\ learnModeEnabled (vars b') = false))
  /\ (forall n, exists learned : list Z,
        let bn := exec (loops RC6 n) b in
        irCodeData (vars bn) = List.last learned (irCodeData (vars b))
        /\ eeprom bn = saved_in_turn learned (eeprom b)
        /\ eeprom_writes (trace bn) = eeprom_writes (trace b) ++ writes_in_turn learned
        /\ (length learned <= n)%nat).
Proof.
  intros polled b'.
  destruct (before_processIr b) as (Hv & _ & Hi & Hp & Hs). fold polled in Hv, Hi, Hp, Hs.
  split; [exact Hs|]. split; [|intros n; apply loops_history].
  destruct (loop_cases RC6 b) as (_ & _ & _ & Hcases).
  fold b' in Hcases. rewrite <- Hv in Hcases.
  destruct Hcases as [(U & _)|[(_ & _ & U & _)|(L0 & (v & D & C1 & C2 & C3) & _ & L)]].
  - left. exact U.
  - left. exact U.
  - right. rewrite <- (delivered_ext RC6 b polled Hi Hp) in D.
    assert (b' = exec (processCode v ;; irrecv_resume) (exec irrecv_decode polled)) as E.
    { subst b'. rewrite loop_split. fold polled. rewrite processIr_delivered, D.
      reflexivity. }
    rewrite C1. repeat split; assumption.
Qed.

(** ** The uninitialised trained code *)

Lemma setup_run b :
  exists t,
    exec setup b =
    mkBoard (set_irCodeData (eval (loadFromEeprom IR_CODE_DATA_ADDRESS) b) (vars b))
            (eeprom b) (pins b) (levels b) (reads b) (ir b) (polls b) (trace b ++ t)
    /\ eeprom_writes t = [].
Proof.
  destruct IR_CODE_DATA_ADDRESS_ok as [Ha Hb].
  unfold eval. rewrite (loadFromEeprom_run IR_CODE_DATA_ADDRESS b) by assumption.
  cbn [fst].
  destruct b as [[button mode led code result] e p l r i q t].
  unfold setup, exec, bind at 1 2, pinModeOutput. cbn [log vars eeprom pins levels reads ir polls trace].
  unfold bind at 1. rewrite loadFromEeprom_run by assumption.
  cbn [vars eeprom pins levels reads ir polls trace].
  unfold bind, put, irrecv_enableIRIn, with_vars, log.
  cbn [snd vars eeprom pins levels reads ir polls trace].
  rewrite <- !app_assoc. eexists. split; reflexivity.
Qed.

Lemma setup_on_erased_store button remote :
  irCodeData (vars (exec setup (power_on ∅ button remote))) = -1.
Proof.
  destruct (setup_run (power_on ∅ button remote)) as (t & -> & _).
  destruct IR_CODE_DATA_ADDRESS_ok as [Ha Hb].
  cbn [vars irCodeData set_irCodeData]. unfold eval.
  rewrite loadFromEeprom_run by assumption. reflexivity.
Qed.

Lemma idle_button_sample b :
  (forall k, levels b LEARN_BUTTON_PIN k = true) ->
  button_sample b LEARN_BUTTON_PIN = Some true.
Proof. intros H. unfold button_sample. now rewrite !H. Qed.

(** A board whose trained code is 0xFFFFFFFF and whose learn mode is off
    stays so through a poll of the receiver, output and store untouched. *)
Lemma processIr_untrained RC6 b :
  irCodeData (vars b) = -1 -> learnModeEnabled (vars b) = false ->
  let b' := exec (processIr RC6) b in
  levels b' = levels b
  /\ learnModeEnabled (vars b') = false
  /\ workLedState (vars b') = workLedState (vars b)
  /\ store_untouched b b'.
Proof.
  intros Hcode Hmode b'.
  destruct (processIr_cases RC6 b) as (Hl & _ & _ & _ & Hcases). fold b' in Hl, Hcases.
  split; [exact Hl|].
  destruct Hcases as [(U & W & L)|[(_ & D & _)|(L0 & _)]].
  - split; [congruence|]. split; assumption.
  - rewrite Hcode in D. apply delivered_not_sentinel in D. now destruct D.
  - congruence.
Qed.

Lemma loop_untrained RC6 b :
  irCodeData (vars b) = -1 -> learnModeEnabled (vars b) = false ->
  (forall k, levels b LEARN_BUTTON_PIN k = true) ->
  let b' := exec (loop RC6) b in
  levels b' = levels b
  /\ learnModeEnabled (vars b') = false
  /\ workLedState (vars b') = workLedState (vars b)
  /\ store_untouched b b'.
Proof.
  intros Hcode Hmode Hidle b'.
  destruct (loop_cases RC6 b) as (Hl & _ & _ & Hcases). fold b' in Hl, Hcases.
  assert (learnModeEnabled (vars (exec processLearnButton b)) = false) as Hs.
  { destruct (processLearnButton_cases b) as (_ & _ & _ & _ & _ & _ & _ & [->|Hp]);
      [exact Hmode|].
    destruct Hp as (pressed & Hr & _ & ->).
    pose proof (proj2 (getButtonState_released b) (idle_button_sample b Hidle)) as H0.
    rewrite H0 in Hr. destruct pressed; [discriminate|reflexivity]. }
  split; [exact Hl|].
  destruct Hcases as [(U & W & L)|[(_ & D & _)|(L0 & _)]].
  - split; [congruence|]. split; assumption.
  - rewrite Hcode in D. apply delivered_not_sentinel in D. now destruct D.
  - congruence.
Qed.

(** C9: whatever [processIr] hands to [processCode] is not 0xFFFFFFFF; a
    store that was never written loads as 0xFFFFFFFF at [setup]; and a board
    whose trained code is 0xFFFFFFFF, in normal mode, keeps its output
    state, its trained code, its mode and its store, with no EEPROM write,
    through any number of polls of the receiver, and through any number of
    passes of [loop] while the learn button stays released. *)
Theorem sentinel_never_matches RC6 :
  (forall b v, delivered RC6 b = Some v -> to_ulong v <> 4294967295 /\ v <> -1)
  /\ (forall b,
        exec (processIr RC6) b =
        match delivered RC6 b with
        | Some v => exec (processCode v ;; irrecv_resume) (exec irrecv_decode b)
        | None =>
            match ir b (polls b) with
            | Some _ => exec irrecv_resume (exec irrecv_decode b)
            | None => exec irrecv_decode b
            end
        end)
  /\ (forall button remote,
        let b0 := exec setup (power_on ∅ button remote) in
        irCodeData (vars b0) = -1
        /\ to_ulong (irCodeData (vars b0)) = 4294967295
        /\ learnModeEnabled (vars b0) = false)
  /\ (forall n b,
        irCodeData (vars b) = -1 -> learnModeEnabled (vars b) = false ->
        let b' := exec (polls_of_processIr RC6 n) b in
        workLedState (vars b') = workLedState (vars b)
        /\ learnModeEnabled (vars b') = false
        /\ irCodeData (vars b') = -1
        /\ eeprom b' = eeprom b
        /\ eeprom_writes (trace b') = eeprom_writes (trace b))
  /\ (forall n b,
        irCodeData (vars b) = -1 -> learnModeEnabled (vars b) = false ->
        (forall k, levels b LEARN_BUTTON_PIN k = true) ->
        let b' := exec (loops RC6 n) b in
        workLedState (vars b') = workLedState (vars b)
        /\ learnModeEnabled (vars b') = false
        /\ irCodeData (vars b') = -1
        /\ eeprom b' = eeprom b
        /\ eeprom_writes (trace b') = eeprom_writes (trace b)).
Proof.
  split; [intros b v; apply delivered_not_sentinel|].
  split; [intros b; apply processIr_delivered|].
  split; [|split].
  - intros button remote b0. subst b0.
    rewrite setup_on_erased_store. split; [reflexivity|]. split; [reflexivity|].
    destruct (setup_run (power_on ∅ button remote)) as (t & -> & _). reflexivity.
  - induction n as [|n IH]; intros b Hcode Hmode b'; subst b'.
    + cbn. rewrite Hcode, Hmode. repeat split.
    + rewrite polls_of_processIr_succ.
      destruct (processIr_untrained RC6 b Hcode Hmode) as (_ & L & W & U1 & U2 & U3).
      destruct (IH (exec (processIr RC6) b)) as (A1 & A2 & A3 & A4 & A5);
        [congruence|exact L|].
      repeat split; congruence.
  - induction n as [|n IH]; intros b Hcode Hmode Hidle b'; subst b'.
    + cbn. rewrite Hcode, Hmode. repeat split.
    + rewrite loops_succ.
      destruct (loop_untrained RC6 b Hcode Hmode Hidle) as (Hl & L & W & U1 & U2 & U3).
      destruct (IH (exec (loop RC6) b)) as (A1 & A2 & A3 & A4 & A5);
        [congruence|exact L|intros k; rewrite Hl; apply Hidle|].
      repeat split; congruence.
Qed.

(** ** Learn mode and the recorded button state *)

Lemma loop_keeps_learning_while_pressed RC6 b :
  learning_while_pressed b -> learning_while_pressed (exec (loop RC6) b).
Proof.
  unfold learning_while_pressed. intros Hinv.
  destruct (loop_cases RC6 b) as (_ & _ & Hb & Hcases).
  assert (learnModeEnabled (vars (exec processLearnButton b)) = true ->
          learnButtonState (vars (exec processLearnButton b)) = true) as Hs.
  { destruct (processLearnButton_cases b) as (_ & _ & _ & _ & _ & _ & _ & [->|Hp]);
      [exact Hinv|].
    destruct Hp as (pressed & _ & _ & ->). cbn. tauto. }
  rewrite Hb.
  destruct Hcases as [(_ & _ & L)|[(_ & _ & _ & _ & L)|(_ & _ & _ & L)]];
    rewrite L; [exact Hs|discriminate|discriminate].
Qed.

(** C10: after [setup] and any number of passes of [loop], learn mode is
    enabled only if the button is recorded as pressed.  The supports:
    [processLearnButton] either leaves the variables alone or gives both
    flags the sampled state; [processCode] never changes the recorded button
    state and never switches learn mode on.  Hence, once a commit has
    switched learn mode off with the button still recorded as pressed, a
    Released sample changes the recorded button state and nothing else. *)
Theorem learn_mode_implies_pressed RC6 :
  (forall n store button remote,
     let b := exec (setup ;; loops RC6 n) (power_on store button remote) in
     learnModeEnabled (vars b) = true -> learnButtonState (vars b) = true)
  /\ (forall b,
        let b' := exec processLearnButton b in
        vars b' = vars b
        \/ exists pressed,
             eval (getButtonState LEARN_BUTTON_PIN true) b = Z.b2z pressed
             /\ vars b' = set_learnModeEnabled pressed
                            (set_learnButtonState pressed (vars b)))
  /\ (forall v b,
        let b' := exec (processCode v) b in
        learnButtonState (vars b') = learnButtonState (vars b)
        /\ (learnModeEnabled (vars b') = true -> learnModeEnabled (vars b) = true))
  /\ (forall b,
        learnModeEnabled (vars b) = false -> learnButtonState (vars b) = true ->
        eval (getButtonState LEARN_BUTTON_PIN true) b = 0 ->
        let b' := exec processLearnButton b in
        vars b' = set_learnButtonState false (vars b)
        /\ eeprom b' = eeprom b /\ pins b' = pins b
        /\ eeprom_writes (trace b') = eeprom_writes (trace b)).
Proof.
  split; [|split; [|split]].
  - intros n store button remote b. subst b. rewrite exec_bind.
    assert (learning_while_pressed (exec setup (power_on store button remote))) as H0.
    { destruct (setup_run (power_on store button remote)) as (t & -> & _).
      intros H. discriminate H. }
    revert H0. generalize (exec setup (power_on store button remote)).
    induction n as [|n IH]; intros b Hinv.
    + exact Hinv.
    + rewrite loops_succ. apply IH. now apply loop_keeps_learning_while_pressed.
  - intros b b'. subst b'.
    destruct (processLearnButton_cases b) as (_ & _ & _ & _ & _ & _ & _ & [E|Hp]);
      [now left|].
    destruct Hp as (pressed & Hr & _ & E). right. exists pressed. now split.
  - intros v b b'. subst b'. destruct (learnModeEnabled (vars b)) eqn:Hmode.
    + unfold exec. rewrite processCode_learn by exact Hmode.
      cbn [snd vars learnButtonState learnModeEnabled set_learnModeEnabled
           set_irCodeData].
      split; [reflexivity|discriminate].
    + destruct (Z.eq_dec (irCodeData (vars b)) v) as [E|Hne].
      * unfold exec. rewrite processCode_match by assumption.
        cbn [snd vars learnButtonState learnModeEnabled set_workLedState].
        split; [reflexivity|congruence].
      * unfold exec. rewrite processCode_mismatch by assumption.
        cbn [snd]. split; [reflexivity|congruence].
  - intros b Hmode Hbutton Hs b'. subst b'. unfold exec.
    destruct (processLearnButton_run b) as (k & t & Hw & E). rewrite E. cbn [snd].
    apply getButtonState_released in Hs. rewrite Hs, Hbutton.
    destruct b as [[button mode led code result] e p l r i q t0].
    cbn in Hmode. subst mode. run_board. cbn [negb eqb].
    rewrite eeprom_writes_app, Hw, app_nil_r. repeat split.
Qed.

(** * The theorems at concrete boards *)

Lemma persisted_layout_witness :
  stored_at (eeprom (exec (saveToEeprom 305419896 0)
                          (bench trained released_button silent_remote))) 0
  = [18; 52; 86; 120].
Proof.
  destruct (persisted_layout 305419896 0 (bench trained released_button silent_remote))
    as (_ & H & _).
  - unfold is_int, INT_MIN, INT_MAX. lia.
  - unfold INT_MAX. lia.
  - exact H.
Defined.

Lemma learn_commit_witness :
  let b' := exec (processCode 165) (bench learning held_button silent_remote) in
  irCodeData (vars b') = 165
  /\ stored_at (eeprom b') IR_CODE_DATA_ADDRESS = [0; 0; 0; 165]
  /\ learnModeEnabled (vars b') = false
  /\ workLedState (vars b') = false.
Proof.
  destruct (learn_commit 165 (bench learning held_button silent_remote))
    as (H1 & H2 & _ & H4 & H5 & _).
  - reflexivity.
  - repeat split; assumption.
Defined.

Lemma normal_mode_match_or_ignore_witness :
  workLedState (vars (exec (processCode 165)
                           (bench trained released_button silent_remote))) = true
  /\ exec (processCode 90) (bench trained released_button silent_remote)
     = bench trained released_button silent_remote.
Proof.
  split.
  - destruct (normal_mode_match_or_ignore 165
                (bench trained released_button silent_remote)) as ((H & _) & _).
    + reflexivity.
    + reflexivity.
    + exact H.
  - destruct (normal_mode_match_or_ignore 90
                (bench trained released_button silent_remote)) as (_ & H & _).
    + reflexivity.
    + apply H. discriminate.
Defined.

Lemma processIr_normalizes_witness :
  let b := bench trained released_button (repeating_remote 4 42405) in
  exec (processIr 4) b = exec (processCode 9637 ;; irrecv_resume) (exec irrecv_decode b)
  /\ exec (processIr 4) (bench trained released_button (repeating_remote 4 4294967295))
     = exec irrecv_resume
            (exec irrecv_decode (bench trained released_button
                                       (repeating_remote 4 4294967295))).
Proof.
  split.
  - destruct (processIr_normalizes 4 (IRremote.mk_results 4 42405)
                (bench trained released_button (repeating_remote 4 42405)))
      as (_ & _ & H & _).
    + reflexivity.
    + unfold is_ulong. cbn. lia.
    + destruct H as (_ & H & _); [discriminate|reflexivity|exact H].
  - destruct (processIr_normalizes 4 (IRremote.mk_results 4 4294967295)
                (bench trained released_button (repeating_remote 4 4294967295)))
      as (_ & H & _).
    + reflexivity.
    + unfold is_ulong. cbn. lia.
    + destruct H as (_ & H & _); [reflexivity|exact H].
Defined.

Lemma debounce_witness :
  eval (getButtonState LEARN_BUTTON_PIN true)
       (bench trained held_button silent_remote) = 1
  /\ eval (getButtonState LEARN_BUTTON_PIN true)
          (bench trained released_button silent_remote) = 0
  /\ eval (getButtonState LEARN_BUTTON_PIN true)
          (bench trained bouncing_button silent_remote) = -1.
Proof.
  split; [|split].
  - destruct (debounce LEARN_BUTTON_PIN true (bench trained held_button silent_remote))
      as (H & _).
    destruct H as (_ & H & _); [reflexivity|reflexivity|reflexivity|].
    apply H; reflexivity.
  - destruct (debounce LEARN_BUTTON_PIN true (bench trained released_button silent_remote))
      as (H & _).
    destruct H as (_ & _ & H); [reflexivity|reflexivity|reflexivity|].
    apply H; reflexivity.
  - destruct (debounce LEARN_BUTTON_PIN true (bench trained bouncing_button silent_remote))
      as (_ & H).
    apply H. left. discriminate.
Defined.

Lemma abort_learn_witness :
  let b' := exec processLearnButton (bench learning released_button silent_remote) in
  learnModeEnabled (vars b') = false
  /\ irCodeData (vars b') = -1
  /\ eeprom b' = ∅
  /\ vars (exec processLearnButton (bench learning bouncing_button silent_remote))
     = learning.
Proof.
  destruct (abort_learn (bench learning released_button silent_remote)) as (H & _).
  destruct (abort_learn (bench learning bouncing_button silent_remote)) as (_ & H').
  destruct H as (H1 & _ & H3 & _ & _ & H6 & _); [reflexivity|reflexivity|reflexivity|].
  destruct H' as (H1' & _); [reflexivity|].
  repeat split; assumption.
Defined.

Lemma sentinel_never_matches_witness :
  let b := exec setup (power_on ∅ released_button (repeating_remote 1 551489775)) in
  irCodeData (vars b) = -1
  /\ workLedState (vars (exec (loops 4 3) b)) = false
  /\ eeprom (exec (loops 4 3) b) = ∅.
Proof.
  destruct (sentinel_never_matches 4) as (_ & _ & H0 & _ & H).
  destruct (H0 released_button (repeating_remote 1 551489775)) as (H1 & _ & H3).
  destruct (H 3%nat (exec setup (power_on ∅ released_button
                                          (repeating_remote 1 551489775))))
    as (A1 & _ & _ & A4 & _).
  - exact H1.
  - exact H3.
  - reflexivity.
  - repeat split; assumption.
Defined.

Lemma learn_mode_implies_pressed_witness :
  let b := exec (setup ;; loops 4 2)
                (power_on ∅ held_button (repeating_remote 4 42405)) in
  learnModeEnabled (vars b) = false
  /\ (learnModeEnabled (vars b) = true -> learnButtonState (vars b) = true)
  /\ vars (exec processLearnButton
                (bench (mkSketch true false false 9637 (IRremote.mk_results 4 42405))
                       released_button silent_remote))
     = mkSketch false false false 9637 (IRremote.mk_results 4 42405).
Proof.
  destruct (learn_mode_implies_pressed 4) as (H & _ & _ & H').
  split; [reflexivity|]. split.
  - apply (H 2%nat ∅ held_button (repeating_remote 4 42405)).
  - destruct (H' (bench (mkSketch true false false 9637 (IRremote.mk_results 4 42405))
                        released_button silent_remote)) as (E & _);
      [reflexivity|reflexivity|reflexivity|exact E].
Defined.

(** ** The lost round trip, end to end *)

(** A code with bit 15 set is learned and matches until the next reset;
    [setup] then loads it with the upper word overwritten, and the same code
    no longer toggles the output. *)
Lemma learned_code_lost_at_reset :
  let b1 := exec (processCode 551520375) (bench learning held_button silent_remote) in
  let b2 := exec setup (power_on (eeprom b1) released_button silent_remote) in
  irCodeData (vars b1) = 551520375
  /\ workLedState (vars (exec (processCode 551520375) b1)) = true
  /\ irCodeData (vars b2) = -30601
  /\ workLedState (vars (exec (processCode 551520375) b2)) = false.
Proof. vm_compute. repeat split. Qed.

(** * Further properties of the sketch *)

(** ** The store and the word macros *)

Lemma write4_write4 address bytes1 bytes2 store :
  write4 address bytes2 (write4 address bytes1 store) = write4 address bytes2 store.
Proof.
  unfold write4. apply map_eq. intros i.
  destruct (decide (i = address + 3)) as [->|H3]; [now rewrite !lookup_insert_eq|].
  rewrite !(lookup_insert_ne _ (address + 3)) by congruence.
  destruct (decide (i = address + 2)) as [->|H2]; [now rewrite !lookup_insert_eq|].
  rewrite !(lookup_insert_ne _ (address + 2)) by congruence.
  destruct (decide (i = address + 1)) as [->|H1]; [now rewrite !lookup_insert_eq|].
  rewrite !(lookup_insert_ne _ (address + 1)) by congruence.
  destruct (decide (i = address)) as [->|H0]; [now rewrite !lookup_insert_eq|].
  rewrite !lookup_insert_ne by congruence.
  reflexivity.
Qed.

Lemma cell_range store a : 0 <= cell store a <= 255.
Proof. unfold cell. generalize (default 255 (store !! a)). intros. div_mod_lia. Qed.

Lemma reloaded_is_long v : is_long v -> is_long (reloaded v).
Proof. intros H. unfold reloaded. destruct (Z.testbit v 15); div_mod_lia. Qed.

(** X1: what [loadFromEeprom] returns after [saveToEeprom v]: the low word
    of [v] always comes back; the whole of [v] comes back exactly when its
    bit 15 is clear or its upper word is all ones; otherwise the result is
    the low word widened with its sign. *)
Theorem eeprom_round_trip_exactly v address b :
  is_long v -> is_int address -> address + 3 <= INT_MAX ->
  let back := eval (loadFromEeprom address) (exec (saveToEeprom v address) b) in
  (back = v <-> Z.testbit v 15 = false \/ -32768 <= v < 0)
  /\ (Z.testbit v 15 = true -> back = to_int v)
  /\ to_ulong back mod 65536 = to_ulong v mod 65536
  /\ is_long back.
Proof.
  intros Hv Ha Hb back. subst back. rewrite load_after_save by assumption.
  split; [now apply round_trip_iff|]. split; [|split].
  - intros H. unfold reloaded. now rewrite H.
  - unfold reloaded. destruct (Z.testbit v 15); [|reflexivity]. div_mod_lia.
  - now apply reloaded_is_long.
Qed.

(** X2: the sketch's three word macros are inverse to each other on every
    [long] as long as the low word stays a [long]: [highWord v] fits an
    [int], [lowWord v] is between 0 and 0xFFFF, and
    [makeLong (highWord v) (lowWord v)] is [v]. *)
Theorem word_macros_inverse v :
  is_long v ->
  is_int (highWord v)
  /\ 0 <= lowWord v <= 65535
  /\ makeLong (highWord v) (lowWord v) = v.
Proof.
  intros Hv. unfold highWord, lowWord, makeLong.
  rewrite shiftr_div by lia. rewrite land_65535.
  split; [div_mod_lia|]. split; [div_mod_lia|].
  rewrite Z.shiftl_mul_pow2 by lia.
  rewrite (to_long_id (v / 2 ^ 16 * 2 ^ 16)) by div_mod_lia.
  rewrite <- Z.shiftl_mul_pow2 by lia.
  rewrite lor_shiftl_low by div_mod_lia.
  div_mod_lia.
Qed.

(** X3: a save replaces what an earlier save at the same address left: the
    store after saving [v1] and then [v2] is the store after saving [v2]
    alone, its four cells hold the bytes of [v2], and every other cell is
    the original one. *)
Theorem save_replaces_previous v1 v2 address b :
  is_int address -> address + 3 <= INT_MAX ->
  let twice := exec (saveToEeprom v2 address) (exec (saveToEeprom v1 address) b) in
  eeprom twice = eeprom (exec (saveToEeprom v2 address) b)
  /\ stored_at (eeprom twice) address = big_endian v2
  /\ (forall a, a < address \/ address + 3 < a -> eeprom twice !! a = eeprom b !! a).
Proof.
  intros Ha Hb twice. subst twice. unfold exec.
  rewrite (saveToEeprom_run v1) by assumption. cbn [snd].
  rewrite !(saveToEeprom_run v2) by assumption. cbn [snd eeprom].
  rewrite write4_write4.
  split; [reflexivity|]. split; [apply stored_at_write4|].
  intros a Hne. now apply write4_elsewhere.
Qed.

(** X4: [loadFromEeprom] on any store: it writes nothing and returns a
    [long] whose low word is the two cells at [address+2], [address+3]; when
    the cell at [address+2] is below 0x80 the result is the big-endian value
    of the four cells, otherwise it is the low word minus 0x10000 whatever
    the first two cells hold. *)
Theorem load_decodes_big_endian address b :
  is_int address -> address + 3 <= INT_MAX ->
  let c0 := cell (eeprom b) address in
  let c1 := cell (eeprom b) (address + 1) in
  let c2 := cell (eeprom b) (address + 2) in
  let c3 := cell (eeprom b) (address + 3) in
  let r := eval (loadFromEeprom address) b in
  is_long r
  /\ to_ulong r mod 65536 = c2 * 256 + c3
  /\ (c2 < 128 -> to_ulong r = c0 * 2 ^ 24 + c1 * 2 ^ 16 + c2 * 2 ^ 8 + c3)
  /\ (128 <= c2 -> r = c2 * 256 + c3 - 65536)
  /\ eeprom (exec (loadFromEeprom address) b) = eeprom b
  /\ vars (exec (loadFromEeprom address) b) = vars b
  /\ eeprom_writes (trace (exec (loadFromEeprom address) b)) = eeprom_writes (trace b).
Proof.
  intros Ha Hb c0 c1 c2 c3 r. subst r. unfold eval, exec.
  rewrite loadFromEeprom_run by assumption. cbn [fst snd eeprom vars trace].
  fold c0 c1 c2 c3.
  pose proof (cell_range (eeprom b) address) as R0.
  pose proof (cell_range (eeprom b) (address + 1)) as R1.
  pose proof (cell_range (eeprom b) (address + 2)) as R2.
  pose proof (cell_range (eeprom b) (address + 3)) as R3.
  fold c0 in R0. fold c1 in R1. fold c2 in R2. fold c3 in R3.
  clearbody c0 c1 c2 c3.
  rewrite makeLong_value by apply to_int_is_int.
  rewrite !word_value by assumption.
  rewrite eeprom_writes_app. cbn [eeprom_writes]. rewrite app_nil_r.
  destruct (Z.ltb_spec (to_int (c2 * 256 + c3)) 0) as [Hneg|Hpos];
    (split; [div_mod_lia|]); (split; [div_mod_lia|]);
    (split; [intros H; div_mod_lia|]); (split; [intros H; div_mod_lia|]);
    repeat split.
Qed.

(** ** The button, its cost and its edges *)

Lemma elapsed_app t1 t2 : elapsed (t1 ++ t2) = elapsed t1 + elapsed t2.
Proof.
  induction t1 as [|e t1 IH]; [reflexivity|].
  destruct e; cbn [app elapsed]; rewrite IH; lia.
Qed.



(** X6: the learn button's other edges.  A Pressed sample (1) while the
    button is recorded as released switches learn mode on, records the
    press, and touches nothing else.  A Pressed sample while the button is
    already recorded as pressed changes no variable, so a button kept down
    after a commit does not switch learn mode on again; a Released sample
    while the button is recorded as released changes no variable either. *)
Theorem press_edge_enters_learning b :
  let b' := exec processLearnButton b in
  (learnButtonState (vars b) = false ->
   eval (getButtonState LEARN_BUTTON_PIN true) b = 1 ->
     learnModeEnabled (vars b') = true
     /\ learnButtonState (vars b') = true
     /\ irCodeData (vars b') = irCodeData (vars b)
     /\ workLedState (vars b') = workLedState (vars b)
     /\ irresult (vars b') = irresult (vars b)
     /\ eeprom b' = eeprom b /\ pins b' = pins b)
  /\ (learnButtonState (vars b) = true ->
      eval (getButtonState LEARN_BUTTON_PIN true) b = 1 ->
      vars b' = vars b /\ eeprom b' = eeprom b /\ pins b' = pins b)
  /\ (learnButtonState (vars b) = false ->
      eval (getButtonState LEARN_BUTTON_PIN true) b = 0 ->
      vars b' = vars b /\ eeprom b' = eeprom b /\ pins b' = pins b).
Proof.
  intros b'. subst b'. unfold exec.
  destruct (processLearnButton_run b) as (k & t & Hw & E). rewrite E. cbn [snd].
  clear E. split; [|split].
  - intros Hbutton Hs. apply getButtonState_pressed in Hs. rewrite Hs, Hbutton.
    destruct b as [[button mode led code result] e p l r i q t0].
    run_board. cbn [negb eqb]. repeat split.
  - intros Hbutton Hs. apply getButtonState_pressed in Hs. rewrite Hs, Hbutton.
    cbn [negb eqb]. repeat split.
  - intros Hbutton Hs. apply getButtonState_released in Hs. rewrite Hs, Hbutton.
    cbn [negb eqb]. repeat split.
Qed.

(** ** The receiver, poll by poll *)

Lemma delivered_passed_on RC6 b :
  delivered RC6 b =
  match ir b (polls b) with
  | Some r => passed_on RC6 r
  | None => None
  end.
Proof. reflexivity. Qed.

Ltac writes_and_delays :=
  repeat (constructor;
          [first [left; eexists; eexists; reflexivity | right; reflexivity]|]);
  constructor.

(** What [processCode] never touches, and what it may log. *)
Lemma processCode_frame v b :
  let b' := exec (processCode v) b in
  levels b' = levels b /\ ir b' = ir b /\ polls b' = polls b /\ reads b' = reads b
  /\ pins b' = pins b
  /\ learnButtonState (vars b') = learnButtonState (vars b)
  /\ irresult (vars b') = irresult (vars b)
  /\ exists t, trace b' = trace b ++ t
               /\ Forall (fun e => (exists a x, e = EepromWrite a x) \/ e = Delay 100) t.
Proof.
  intros b'. subst b'. unfold exec.
  destruct (learnModeEnabled (vars b)) eqn:Hmode.
  - rewrite processCode_learn by exact Hmode. cbn [snd levels ir polls reads pins vars trace].
    repeat split. eexists. split; [reflexivity|].
    writes_and_delays.
  - destruct (Z.eq_dec (irCodeData (vars b)) v) as [Heq|Hne].
    + rewrite processCode_match by assumption.
      cbn [snd levels ir polls reads pins vars trace]. repeat split.
      eexists. split; [reflexivity|].
      writes_and_delays.
    + rewrite processCode_mismatch by assumption. cbn [snd]. repeat split.
      exists []. split; [now rewrite app_nil_r|]. constructor.
Qed.

(** The board after a poll of the receiver, by what the receiver had. *)
Lemma processIr_board RC6 b :
  exec (processIr RC6) b =
  match ir b (polls b) with
  | None => log (IrDecode false) (next_poll b)
  | Some r =>
      let d := log (IrDecode true) (with_vars (set_irresult r) (next_poll b)) in
      match passed_on RC6 r with
      | None => log IrResume d
      | Some v => log IrResume (exec (processCode v) d)
      end
  end.
Proof.
  rewrite processIr_delivered, delivered_passed_on.
  destruct (ir b (polls b)) as [r|] eqn:Hr.
  - assert (exec irrecv_decode b =
            log (IrDecode true) (with_vars (set_irresult r) (next_poll b))) as ->.
    { unfold exec, irrecv_decode. now rewrite Hr. }
    cbv zeta. destruct (passed_on RC6 r) as [v|]; [|reflexivity].
    now rewrite exec_bind.
  - unfold exec, irrecv_decode. now rewrite Hr.
Qed.

(** X7: every call of [processIr] polls the receiver exactly once.  When
    nothing was decoded the sketch's variables and the store stay as they
    were and the receiver is not resumed.  When a result was decoded it is
    left in [irresult] and the receiver is resumed exactly once, at the end,
    whatever the value was; in between only EEPROM writes and the 100 ms
    delay can happen. *)
Theorem processIr_rearms_receiver RC6 b :
  let b' := exec (processIr RC6) b in
  polls b' = S (polls b) /\ reads b' = reads b /\ pins b' = pins b
  /\ ir b' = ir b /\ levels b' = levels b
  /\ match ir b (polls b) with
     | None =>
         vars b' = vars b /\ eeprom b' = eeprom b
         /\ trace b' = trace b ++ [IrDecode false]
     | Some r =>
         irresult (vars b') = r
         /\ exists t,
              trace b' = trace b ++ IrDecode true :: t ++ [IrResume]
              /\ Forall (fun e => (exists a x, e = EepromWrite a x) \/ e = Delay 100) t
     end.
Proof.
  intros b'. subst b'. rewrite processIr_board.
  destruct (ir b (polls b)) as [r|].
  - cbv zeta. destruct (passed_on RC6 r) as [v|].
    + set (d := log (IrDecode true) (with_vars (set_irresult r) (next_poll b))).
      destruct (processCode_frame v d) as (Hl & Hi & Hp & Hr & Hpin & _ & Hres & t & Ht & Hall).
      cbn [log polls reads pins ir levels vars trace].
      rewrite Hl, Hi, Hp, Hr, Hpin, Hres, Ht.
      subst d. destruct b as [[button mode led code result] e p l rd i q t0].
      run_board. repeat split.
      exists t. split; [|exact Hall].
      rewrite <- !app_assoc. reflexivity.
    + destruct b as [[button mode led code result] e p l rd i q t0].
      run_board. repeat split. exists []. split; [|constructor].
      rewrite <- !app_assoc. reflexivity.
  - destruct b as [[button mode led code result] e p l rd i q t0].
    run_board. repeat split.
Qed.

(** ** What a poll does to the machine *)

Lemma same_machine_refl b : same_machine b b.
Proof. repeat split. Qed.

Lemma same_machine_sym b1 b2 : same_machine b1 b2 -> same_machine b2 b1.
Proof. intros (A & B & C & D & E). repeat split; congruence. Qed.

Lemma same_machine_trans b1 b2 b3 :
  same_machine b1 b2 -> same_machine b2 b3 -> same_machine b1 b3.
Proof. intros (A & B & C & D & E) (A' & B' & C' & D' & E'). repeat split; congruence. Qed.

(** [processCode] decides by the flags, the trained code and the store
    alone. *)
Lemma processCode_same_machine v b1 b2 :
  same_machine b1 b2 ->
  same_machine (exec (processCode v) b1) (exec (processCode v) b2).
Proof.
  intros (Hb & Hm & Hl & Hc & He). unfold exec.
  destruct (learnModeEnabled (vars b2)) eqn:Hmode.
  - rewrite !processCode_learn by congruence.
    unfold same_machine. cbn [snd vars eeprom learnButtonState learnModeEnabled
      workLedState irCodeData set_learnModeEnabled set_irCodeData].
    repeat split; congruence.
  - destruct (Z.eq_dec (irCodeData (vars b2)) v) as [Heq|Hne].
    + rewrite !processCode_match by congruence.
      unfold same_machine. cbn [snd vars eeprom learnButtonState learnModeEnabled
        workLedState irCodeData set_workLedState].
      repeat split; congruence.
    + rewrite !processCode_mismatch by congruence. cbn [snd]. repeat split; congruence.
Qed.

(** On the flags, the trained code and the store, a poll of the receiver is
    [processCode] of the delivered value, or nothing. *)
Lemma processIr_machine RC6 b :
  same_machine (exec (processIr RC6) b)
               match delivered RC6 b with
               | Some v => exec (processCode v) b
               | None => b
               end.
Proof.
  rewrite processIr_board, delivered_passed_on.
  destruct (ir b (polls b)) as [r|].
  - cbv zeta. destruct (passed_on RC6 r) as [v|].
    + apply same_machine_trans
        with (exec (processCode v)
                   (log (IrDecode true) (with_vars (set_irresult r) (next_poll b)))).
      * repeat split.
      * apply processCode_same_machine.
        destruct b as [[button mode led code result] e p l rd i q t0]. repeat split.
    + destruct b as [[button mode led code result] e p l rd i q t0]. repeat split.
  - destruct b as [[button mode led code result] e p l rd i q t0]. repeat split.
Qed.

(** The receiver's side of a poll: one more poll made, the same inputs
    ahead. *)
Lemma processIr_env RC6 b :
  let b' := exec (processIr RC6) b in
  polls b' = S (polls b) /\ ir b' = ir b /\ levels b' = levels b
  /\ reads b' = reads b /\ pins b' = pins b.
Proof.
  intros b'. subst b'. rewrite processIr_board.
  destruct (ir b (polls b)) as [r|].
  - cbv zeta. destruct (passed_on RC6 r) as [v|].
    + destruct (processCode_frame v
                  (log (IrDecode true) (with_vars (set_irresult r) (next_poll b))))
        as (Hl & Hi & Hp & Hr & Hpin & _).
      cbn [log polls reads pins ir levels]. rewrite Hl, Hi, Hp, Hr, Hpin.
      destruct b as [[button mode led code result] e p l rd i q t0]. repeat split.
    + destruct b as [[button mode led code result] e p l rd i q t0]. repeat split.
  - destruct b as [[button mode led code result] e p l rd i q t0]. repeat split.
Qed.

(** X8: after a learn, the code that was trained before no longer does
    anything and the new code toggles the output: [processCode v1] on the
    board that just learned [v2] leaves it unchanged, [processCode v2] flips
    the output state. *)
Theorem relearn_replaces_previous v1 v2 b :
  learnModeEnabled (vars b) = true -> v1 <> v2 ->
  let b' := exec (processCode v2) b in
  exec (processCode v1) b' = b'
  /\ workLedState (vars (exec (processCode v2) b')) = negb (workLedState (vars b))
  /\ irCodeData (vars (exec (processCode v2) b')) = v2.
Proof.
  intros Hmode Hne b'. subst b'.
  assert (exists b', exec (processCode v2) b = b'
                     /\ learnModeEnabled (vars b') = false
                     /\ irCodeData (vars b') = v2
                     /\ workLedState (vars b') = workLedState (vars b))
    as (b' & -> & Hm & Hc & Hl).
  { eexists. split; [unfold exec; now rewrite processCode_learn by exact Hmode|].
    repeat split. }
  unfold exec. split; [|split].
  - rewrite processCode_mismatch; [reflexivity|exact Hm|]. rewrite Hc. congruence.
  - rewrite processCode_match by assumption. cbn. now rewrite Hl.
  - rewrite processCode_match by assumption. exact Hc.
Qed.

(** ** Whole passes of the loop *)

Lemma loops_snoc RC6 n : forall b,
  exec (loops RC6 (S n)) b = exec (loop RC6) (exec (loops RC6 n) b).
Proof.
  induction n as [|n IH]; intros b.
  - rewrite loops_succ. reflexivity.
  - rewrite loops_succ, IH, <- loops_succ. reflexivity.
Qed.

(** The output pins after a pass: the two LEDs as driven before the
    receiver was polled. *)
Lemma loop_pins RC6 b :
  pins (exec (loop RC6) b) =
  <[WORK_LED_PIN := workLedState (vars b)]>
    (<[LEARN_LED_PIN := learnModeEnabled (vars (exec processLearnButton b))]> (pins b)).
Proof.
  rewrite loop_split.
  destruct (processIr_env RC6
              (exec (processLearnButton ;; processLearnLed ;; processWorkLed) b))
    as (_ & _ & _ & _ & ->).
  rewrite !exec_bind, processWorkLed_run, processLearnLed_run.
  destruct (processLearnButton_cases b) as (_ & _ & _ & Hp & _ & Hw & _).
  cbn [log with_pins pins vars]. now rewrite Hp, Hw.
Qed.

(** On the flags, the trained code and the store, a pass is the button
    sample followed by [processCode] of the delivered value, if any. *)
Lemma loop_machine RC6 b :
  same_machine (exec (loop RC6) b)
               match delivered RC6 b with
               | Some v => exec (processCode v) (exec processLearnButton b)
               | None => exec processLearnButton b
               end.
Proof.
  rewrite loop_split.
  destruct (before_processIr b) as (Hv & _ & Hi & Hp & (_ & He & _)).
  destruct (processLearnButton_cases b) as (_ & _ & _ & _ & (_ & He' & _) & _).
  set (p := exec (processLearnButton ;; processLearnLed ;; processWorkLed) b) in *.
  assert (same_machine p (exec processLearnButton b)) as Hsame.
  { unfold same_machine. rewrite Hv. repeat split. congruence. }
  eapply same_machine_trans; [apply processIr_machine|].
  rewrite (delivered_ext RC6 b p Hi Hp).
  destruct (delivered RC6 b) as [v|]; [|exact Hsame].
  now apply processCode_same_machine.
Qed.

(** X10: the LED pins show the state as it was before the receiver was
    polled.  After every pass the output pin carries the output state the
    pass started with, so a toggle reaches the pin one pass later; the
    mode LED carries the mode the button sample of that pass left; no
    other pin is ever driven. *)
Theorem output_pins_lag_one_pass RC6 n b :
  let before := exec (loops RC6 n) b in
  let after := exec (loops RC6 (S n)) b in
  pins after !! WORK_LED_PIN = Some (workLedState (vars before))
  /\ pins after !! LEARN_LED_PIN
     = Some (learnModeEnabled (vars (exec processLearnButton before)))
  /\ (workLedState (vars after) <> workLedState (vars before) ->
      pins after !! WORK_LED_PIN <> Some (workLedState (vars after)))
  /\ (forall p, p <> WORK_LED_PIN -> p <> LEARN_LED_PIN ->
      pins after !! p = pins b !! p).
Proof.
  intros before after. subst before after. rewrite loops_snoc.
  set (before := exec (loops RC6 n) b).
  rewrite loop_pins.
  split; [apply lookup_insert_eq|]. split.
  { rewrite lookup_insert_ne by discriminate. apply lookup_insert_eq. }
  split.
  { intros Hne. rewrite lookup_insert_eq. congruence. }
  intros p Hw Hl. rewrite !lookup_insert_ne by congruence.
  subst before. clear -Hw Hl. induction n as [|n IH]; [reflexivity|].
  rewrite loops_snoc, loop_pins, !lookup_insert_ne by congruence. exact IH.
Qed.

(** X11: a press and a code in the same pass.  When the button is recorded
    as released, the sample of this pass is Pressed and the receiver
    delivers [v] in this pass, the pass learns [v] at once: the trained code
    is [v], the store holds its bytes, learn mode is off again at the end of
    the pass with the button recorded as pressed, the output state is as
    before, and the mode LED was driven HIGH in this pass. *)
Theorem press_and_code_in_one_pass RC6 v b :
  learnButtonState (vars b) = false ->
  eval (getButtonState LEARN_BUTTON_PIN true) b = 1 ->
  delivered RC6 b = Some v ->
  let b' := exec (loop RC6) b in
  irCodeData (vars b') = v
  /\ stored_at (eeprom b') IR_CODE_DATA_ADDRESS = big_endian v
  /\ learnModeEnabled (vars b') = false
  /\ learnButtonState (vars b') = true
  /\ workLedState (vars b') = workLedState (vars b)
  /\ pins b' !! LEARN_LED_PIN = Some true.
Proof.
  intros Hbutton Hs Hd b'. subst b'.
  destruct (processLearnButton_run b) as (k & t & _ & E).
  apply getButtonState_pressed in Hs. rewrite Hs, Hbutton in E. cbn [negb eqb] in E.
  assert (exec processLearnButton b = with_vars (press true) (after_reads b k t)) as Hb
    by (unfold exec; now rewrite E).
  pose proof (loop_machine RC6 b) as Hm. rewrite Hd, Hb in Hm.
  unfold exec at 2 in Hm. rewrite processCode_learn in Hm by reflexivity.
  destruct Hm as (M1 & M2 & M3 & M4 & M5). cbn in M1, M2, M3, M4, M5.
  rewrite loop_pins, Hb, M5.
  split; [exact M4|]. split; [apply stored_at_write4|].
  split; [exact M2|]. split; [exact M1|]. split; [exact M3|].
  rewrite lookup_insert_ne by discriminate. apply lookup_insert_eq.
Qed.

(** ** The store over a whole run *)

Lemma saved_in_turn_elsewhere learned : forall store a,
  a < IR_CODE_DATA_ADDRESS \/ IR_CODE_DATA_ADDRESS + 3 < a ->
  saved_in_turn learned store !! a = store !! a.
Proof.
  induction learned as [|v learned IH]; intros store a Ha; [reflexivity|].
  unfold saved_in_turn. cbn [List.fold_left]. fold (saved_in_turn learned).
  rewrite IH by exact Ha. now apply write4_elsewhere.
Qed.

Lemma writes_in_turn_shape learned :
  Forall (fun w => IR_CODE_DATA_ADDRESS <= fst w <= IR_CODE_DATA_ADDRESS + 3
                   /\ 0 <= snd w <= 255) (writes_in_turn learned)
  /\ length (writes_in_turn learned) = (4 * length learned)%nat.
Proof.
  induction learned as [|v learned [IH1 IH2]].
  - split; [constructor|reflexivity].
  - unfold writes_in_turn. cbn [List.map List.concat]. fold (writes_in_turn learned).
    split.
    + unfold save_writes, IR_CODE_DATA_ADDRESS.
      repeat (constructor; [cbn [fst snd]; split; [lia|apply byte_at_range]|]).
      exact IH1.
    + rewrite length_app, IH2. cbn [save_writes length]. lia.
Qed.

(** X12: whatever the button and the receiver do, [n] passes of the loop
    write no cell of the store outside the four at the configured address,
    and log at most [4 * n] EEPROM writes, each of a byte to one of these
    four addresses. *)
Theorem loop_writes_only_its_cells RC6 n b :
  let b' := exec (loops RC6 n) b in
  (forall a, a < IR_CODE_DATA_ADDRESS \/ IR_CODE_DATA_ADDRESS + 3 < a ->
     eeprom b' !! a = eeprom b !! a)
  /\ exists ws,
       eeprom_writes (trace b') = eeprom_writes (trace b) ++ ws
       /\ Forall (fun w => IR_CODE_DATA_ADDRESS <= fst w <= IR_CODE_DATA_ADDRESS + 3
                           /\ 0 <= snd w <= 255) ws
       /\ (length ws <= 4 * n)%nat.
Proof.
  intros b'. subst b'.
  destruct (loops_history RC6 n b) as (learned & _ & He & Hw & Hlen). cbv zeta in *.
  destruct (writes_in_turn_shape learned) as (Hall & Hl).
  split.
  - intros a Ha. rewrite He. now apply saved_in_turn_elsewhere.
  - exists (writes_in_turn learned). split; [exact Hw|]. split; [exact Hall|]. lia.
Qed.

Lemma loop_keeps_mirrored RC6 b : mirrored b -> mirrored (exec (loop RC6) b).
Proof.
  unfold mirrored. intros Hm.
  destruct (loop_cases RC6 b) as (_ & _ & _ & Hcases).
  destruct Hcases as [((U1 & U2 & _) & _)|[(_ & _ & (U1 & U2 & _) & _)
                                          |(_ & (v & _ & C1 & C2 & _) & _)]].
  - now rewrite U1, U2.
  - now rewrite U1, U2.
  - rewrite C1, C2. apply stored_at_write4.
Qed.

(** X13: the store mirrors the trained code.  Once the four cells hold the
    bytes of the trained code they do so after any number of passes; a
    commit in learn mode establishes this, and so does [setup] on a store
    that was never written. *)
Theorem store_mirrors_trained_code RC6 :
  (forall n b, mirrored b -> mirrored (exec (loops RC6 n) b))
  /\ (forall v b, learnModeEnabled (vars b) = true -> mirrored (exec (processCode v) b))
  /\ (forall n button remote,
        mirrored (exec (setup ;; loops RC6 n) (power_on ∅ button remote))).
Proof.
  assert (forall n b, mirrored b -> mirrored (exec (loops RC6 n) b)) as Hloops.
  { induction n as [|n IH]; intros b Hm; [exact Hm|].
    rewrite loops_succ. apply IH. now apply loop_keeps_mirrored. }
  split; [exact Hloops|]. split.
  - intros v b Hmode. unfold mirrored, exec. rewrite processCode_learn by exact Hmode.
    cbn [snd vars eeprom irCodeData set_learnModeEnabled set_irCodeData].
    apply stored_at_write4.
  - intros n button remote. rewrite exec_bind. apply Hloops.
    unfold mirrored. rewrite setup_on_erased_store.
    destruct (setup_run (power_on ∅ button remote)) as (t & -> & _).
    reflexivity.
Qed.

(** X14: a code that is learned is never 0xFFFFFFFF.  If a pass changes the
    trained code, the new one is not 0xFFFFFFFF; so a trained code other
    than 0xFFFFFFFF stays other than 0xFFFFFFFF through any number of
    passes. *)
Theorem learned_code_is_never_sentinel RC6 :
  (forall b, irCodeData (vars (exec (loop RC6) b)) <> irCodeData (vars b) ->
     irCodeData (vars (exec (loop RC6) b)) <> -1
     /\ to_ulong (irCodeData (vars (exec (loop RC6) b))) <> 4294967295)
  /\ (forall n b, irCodeData (vars b) <> -1 ->
        irCodeData (vars (exec (loops RC6 n) b)) <> -1).
Proof.
  assert (forall b, irCodeData (vars (exec (loop RC6) b)) = irCodeData (vars b)
                    \/ (irCodeData (vars (exec (loop RC6) b)) <> -1
                        /\ to_ulong (irCodeData (vars (exec (loop RC6) b))) <> 4294967295))
    as Hstep.
  { intros b. destruct (loop_cases RC6 b) as (_ & _ & _ & Hcases).
    destruct Hcases as [((U1 & _) & _)|[(_ & _ & (U1 & _) & _)
                                       |(_ & (v & D & C1 & _) & _)]].
    - now left.
    - now left.
    - right. rewrite C1. apply delivered_not_sentinel in D. tauto. }
  split.
  - intros b Hne. destruct (Hstep b) as [E|H]; [contradiction|exact H].
  - induction n as [|n IH]; intros b Hb; [exact Hb|].
    rewrite loops_succ. apply IH.
    destruct (Hstep b) as [E|[H _]]; [congruence|exact H].
Qed.

(** ** Across a reset, and across the toggle bit *)

Lemma load_of_stored address b v :
  is_long v -> is_int address -> address + 3 <= INT_MAX ->
  stored_at (eeprom b) address = big_endian v ->
  eval (loadFromEeprom address) b = reloaded v.
Proof.
  intros Hv Ha Hb Hs. unfold eval. rewrite loadFromEeprom_run by assumption.
  cbn [fst]. unfold stored_at, big_endian in Hs. injection Hs as -> -> -> ->.
  now apply makeLong_of_big_endian.
Qed.

Lemma setup_after_learn v b button remote :
  learnModeEnabled (vars b) = true -> is_long v ->
  vars (exec setup (power_on (eeprom (exec (processCode v) b)) button remote))
  = mkSketch false false false (reloaded v) (IRremote.mk_results 0 0)
  /\ eeprom (exec setup (power_on (eeprom (exec (processCode v) b)) button remote))
     = eeprom (exec (processCode v) b).
Proof.
  intros Hmode Hv. destruct IR_CODE_DATA_ADDRESS_ok as [Ha Hb].
  destruct (setup_run (power_on (eeprom (exec (processCode v) b)) button remote))
    as (t & -> & _).
  cbn [vars eeprom power_on set_irCodeData learnButtonState learnModeEnabled
       workLedState irresult].
  split; [|reflexivity].
  rewrite (load_of_stored IR_CODE_DATA_ADDRESS _ v); [reflexivity|assumption..|].
  cbn [eeprom power_on]. unfold exec. rewrite processCode_learn by exact Hmode.
  cbn [snd eeprom]. apply stored_at_write4.
Qed.

(** X15: a reset after a learn.  Powering the board on again with the store
    a commit of [v] left, [setup] loads the trained code [loadFromEeprom]
    rebuilds from the saved bytes: [v] itself exactly when bit 15 of [v] is
    clear or its upper word is all ones.  The output state and the mode are
    not persisted: both start off; [setup] leaves the store as it found
    it. *)
Theorem trained_code_after_reset v b button remote :
  learnModeEnabled (vars b) = true -> is_long v ->
  let learned := exec (processCode v) b in
  let rebooted := exec setup (power_on (eeprom learned) button remote) in
  irCodeData (vars rebooted) = reloaded v
  /\ (irCodeData (vars rebooted) = v <-> Z.testbit v 15 = false \/ -32768 <= v < 0)
  /\ workLedState (vars rebooted) = false
  /\ learnModeEnabled (vars rebooted) = false
  /\ eeprom rebooted = eeprom learned.
Proof.
  intros Hmode Hv learned rebooted. subst learned rebooted.
  destruct (setup_after_learn v b button remote Hmode Hv) as (-> & ->).
  cbn [irCodeData workLedState learnModeEnabled].
  split; [reflexivity|]. split; [now apply round_trip_iff|]. repeat split.
Qed.

Lemma clear_bit_15_stays_clear x :
  Z.testbit (to_long (Z.land x (Z.lnot 32768))) 15 = false.
Proof.
  rewrite testbit_15. apply Z.leb_gt. rewrite clear_bit_15, testbit_15.
  destruct (Z.leb_spec 32768 (x mod 65536)); div_mod_lia.
Qed.

Lemma passed_on_rc6 RC6 r :
  IRremote.decode_type r = RC6 -> is_ulong (IRremote.value r) ->
  IRremote.value r <> 4294967295 ->
  passed_on RC6 r = Some (to_long (Z.land (IRremote.value r) (Z.lnot 32768))).
Proof.
  intros Htag Hu Hv. unfold passed_on. cbv zeta.
  rewrite to_ulong_to_long_id by exact Hu.
  apply not_eq_sym in Hv. apply Z.eqb_neq in Hv. rewrite Hv.
  apply Z.eqb_eq in Htag. rewrite Htag. now rewrite clear_bit_15_to_long.
Qed.

(** X16: a code learned from an RC6 remote survives a reset.  When a result
    with the RC6 tag is polled in learn mode, the trained code is its value
    with bit 15 cleared; after a power cycle on the store this left, [setup]
    loads exactly that code again, and the same result is still passed on as
    the trained code. *)
Theorem rc6_code_survives_reset RC6 r b button remote :
  ir b (polls b) = Some r ->
  IRremote.decode_type r = RC6 -> is_ulong (IRremote.value r) ->
  IRremote.value r <> 4294967295 ->
  learnModeEnabled (vars b) = true ->
  let learned := exec (processIr RC6) b in
  let rebooted := exec setup (power_on (eeprom learned) button remote) in
  irCodeData (vars learned) = to_long (Z.land (IRremote.value r) (Z.lnot 32768))
  /\ irCodeData (vars rebooted) = irCodeData (vars learned)
  /\ passed_on RC6 r = Some (irCodeData (vars rebooted)).
Proof.
  intros Hr Htag Hu Hv Hmode learned rebooted. subst learned rebooted.
  set (c := to_long (Z.land (IRremote.value r) (Z.lnot 32768))).
  pose proof (passed_on_rc6 RC6 r Htag Hu Hv) as Hpass. fold c in Hpass.
  pose proof (processIr_machine RC6 b) as Hm.
  rewrite delivered_passed_on, Hr, Hpass in Hm.
  destruct Hm as (_ & _ & _ & M4 & M5).
  assert (is_long c) as Hc by (subst c; div_mod_lia).
  destruct (setup_after_learn c b button remote Hmode Hc) as (Hvars & _).
  rewrite <- M5 in Hvars. rewrite Hvars. cbn [irCodeData].
  assert (reloaded c = c) as ->.
  { unfold reloaded. subst c. now rewrite clear_bit_15_stays_clear. }
  assert (irCodeData (vars (exec (processIr RC6) b)) = c) as ->.
  { rewrite M4. unfold exec. rewrite processCode_learn by exact Hmode. reflexivity. }
  repeat split. exact Hpass.
Qed.

(** X17: the toggle bit of an RC6 remote does not matter.  Two boards that
    agree on the flags, the trained code and the store, polled with two RC6
    results whose values differ at most in bit 15 (neither being
    0xFFFFFFFF), agree on the flags, the trained code and the store
    afterwards. *)
Theorem rc6_toggle_bit_ignored RC6 r1 r2 b1 b2 :
  same_machine b1 b2 ->
  ir b1 (polls b1) = Some r1 -> ir b2 (polls b2) = Some r2 ->
  IRremote.decode_type r1 = RC6 -> IRremote.decode_type r2 = RC6 ->
  is_ulong (IRremote.value r1) -> is_ulong (IRremote.value r2) ->
  IRremote.value r1 <> 4294967295 -> IRremote.value r2 <> 4294967295 ->
  Z.land (IRremote.value r1) (Z.lnot 32768) = Z.land (IRremote.value r2) (Z.lnot 32768) ->
  same_machine (exec (processIr RC6) b1) (exec (processIr RC6) b2).
Proof.
  intros Hsame Hr1 Hr2 Ht1 Ht2 Hu1 Hu2 Hv1 Hv2 Hbits.
  pose proof (processIr_machine RC6 b1) as H1.
  pose proof (processIr_machine RC6 b2) as H2.
  rewrite delivered_passed_on, Hr1, (passed_on_rc6 RC6 r1 Ht1 Hu1 Hv1) in H1.
  rewrite delivered_passed_on, Hr2, (passed_on_rc6 RC6 r2 Ht2 Hu2 Hv2) in H2.
  rewrite Hbits in H1.
  eapply same_machine_trans; [exact H1|].
  eapply same_machine_trans; [|apply same_machine_sym; exact H2].
  now apply processCode_same_machine.
Qed.

(** ** Runs of passes with a steady button *)

Lemma loop_env RC6 b :
  let b' := exec (loop RC6) b in
  polls b' = S (polls b) /\ ir b' = ir b /\ levels b' = levels b.
Proof.
  intros b'. subst b'. rewrite loop_split.
  destruct (before_processIr b) as (_ & Hl & Hi & Hp & _).
  destruct (processIr_env RC6
              (exec (processLearnButton ;; processLearnLed ;; processWorkLed) b))
    as (Hp' & Hi' & Hl' & _).
  repeat split; congruence.
Qed.

Lemma held_button_sample b :
  (forall k, levels b LEARN_BUTTON_PIN k = false) ->
  button_sample b LEARN_BUTTON_PIN = Some false.
Proof. intros H. unfold button_sample. now rewrite !H. Qed.

(** A button that reads the same as it is recorded changes no variable. *)
Lemma steady_button_keeps_vars b level :
  button_sample b LEARN_BUTTON_PIN = Some level ->
  learnButtonState (vars b) = negb level ->
  same_machine (exec processLearnButton b) b.
Proof.
  intros Hs Hb. unfold exec.
  destruct (processLearnButton_run b) as (k & t & _ & E). rewrite E. cbn [snd].
  rewrite Hs, Hb, eqb_reflx. repeat split.
Qed.

(** A released button in normal mode leaves the mode normal and the rest of
    the machine as it is. *)
Lemma released_button_keeps_normal b :
  (forall k, levels b LEARN_BUTTON_PIN k = true) ->
  learnModeEnabled (vars b) = false ->
  let b' := exec processLearnButton b in
  learnModeEnabled (vars b') = false
  /\ workLedState (vars b') = workLedState (vars b)
  /\ irCodeData (vars b') = irCodeData (vars b)
  /\ eeprom b' = eeprom b.
Proof.
  intros Hidle Hmode b'. subst b'. unfold exec.
  destruct (processLearnButton_run b) as (k & t & _ & E). rewrite E. cbn [snd].
  rewrite (idle_button_sample b Hidle). cbn [negb].
  destruct b as [[button mode led code result] e p l r i q t0].
  cbn in Hmode. subst mode. destruct button; repeat split.
Qed.

(** X9: a run of passes in normal mode with the button released, in which
    every poll delivers the trained code: every pass flips the output state,
    so after [n] passes the output state is the initial one for even [n] and
    its negation for odd [n]; the trained code, the mode and the store never
    change. *)
Theorem matching_codes_toggle_each_pass RC6 n : forall b,
  learnModeEnabled (vars b) = false ->
  (forall k, levels b LEARN_BUTTON_PIN k = true) ->
  (forall k, (polls b <= k)%nat ->
     exists r, ir b k = Some r /\ passed_on RC6 r = Some (irCodeData (vars b))) ->
  let b' := exec (loops RC6 n) b in
  workLedState (vars b') =
    (if Nat.even n then workLedState (vars b) else negb (workLedState (vars b)))
  /\ irCodeData (vars b') = irCodeData (vars b)
  /\ learnModeEnabled (vars b') = false
  /\ eeprom b' = eeprom b.
Proof.
  induction n as [|n IH]; intros b Hmode Hidle Hremote b'; subst b'.
  - cbn. repeat split. exact Hmode.
  - rewrite loops_succ.
    destruct (Hremote (polls b) (le_n _)) as (r & Hr & Hpass).
    destruct (released_button_keeps_normal b Hidle Hmode) as (B1 & B2 & B3 & B4).
    pose proof (loop_machine RC6 b) as Hm.
    rewrite delivered_passed_on, Hr, Hpass in Hm.
    unfold exec at 2 in Hm. rewrite processCode_match in Hm by congruence.
    destruct Hm as (_ & M2 & M3 & M4 & M5). cbn in M2, M3, M4, M5.
    destruct (loop_env RC6 b) as (Hp & Hi & Hl).
    destruct (IH (exec (loop RC6) b)) as (A1 & A2 & A3 & A4).
    + congruence.
    + intros k. rewrite Hl. apply Hidle.
    + intros k Hk. rewrite Hi, M4, B3. apply Hremote. lia.
    + rewrite A1, A2, A3, A4, M3, M4, M5, B2, B3, B4.
      rewrite Nat.even_succ, <- Nat.negb_even.
      repeat split.
      destruct (Nat.even n), (workLedState (vars b)); reflexivity.
Qed.

(** X18: learn mode does not time out.  While the button is held and the
    receiver delivers nothing (no result, or only results with the value
    0xFFFFFFFF), every pass leaves learn mode on, the button recorded as
    pressed, and the trained code, the output state and the store as they
    were, for any number of passes. *)
Theorem learn_mode_waits_for_a_code RC6 n : forall b,
  learnModeEnabled (vars b) = true -> learnButtonState (vars b) = true ->
  (forall k, levels b LEARN_BUTTON_PIN k = false) ->
  (forall k, (polls b <= k)%nat ->
     match ir b k with Some r => passed_on RC6 r = None | None => True end) ->
  same_machine (exec (loops RC6 n) b) b.
Proof.
  induction n as [|n IH]; intros b Hmode Hbutton Hheld Hquiet.
  - apply same_machine_refl.
  - rewrite loops_succ.
    assert (delivered RC6 b = None) as Hd.
    { rewrite delivered_passed_on. specialize (Hquiet (polls b) (le_n _)).
      destruct (ir b (polls b)); [exact Hquiet|reflexivity]. }
    pose proof (loop_machine RC6 b) as Hm. rewrite Hd in Hm.
    pose proof (steady_button_keeps_vars b false (held_button_sample b Hheld) Hbutton)
      as Hs.
    pose proof (same_machine_trans _ _ _ Hm Hs) as Hstep.
    destruct (loop_env RC6 b) as (Hp & Hi & Hl).
    destruct Hstep as (S1 & S2 & S3 & S4 & S5).
    eapply same_machine_trans; [apply IH|repeat split; assumption].
    + congruence.
    + congruence.
    + intros k. rewrite Hl. apply Hheld.
    + intros k Hk. rewrite Hi. apply Hquiet. lia.
Qed.

(** ** How long a pass blocks *)

Lemma getButtonState_elapsed pin pullUp b :
  10 <= elapsed (trace (exec (getButtonState pin pullUp) b)) - elapsed (trace b) <= 30.
Proof.
  destruct b as [s e p l rd i q t].
  unfold getButtonState. cbn [getButtonState_rounds]. run_board.
  destruct (l pin rd), (l pin (S rd)); cbn [Z.b2z Z.eqb Pos.eqb negb];
    try solve [rewrite ?elapsed_app; cbn [elapsed]; lia];
    destruct (l pin (S (S rd))); cbn [Z.b2z Z.eqb Pos.eqb negb];
    try solve [rewrite ?elapsed_app; cbn [elapsed]; lia];
    destruct (l pin (S (S (S rd)))); cbn [Z.b2z Z.eqb Pos.eqb negb];
    rewrite ?elapsed_app; cbn [elapsed]; lia.
Qed.

(** [processLearnButton] logs what its [getButtonState] logs, nothing
    more. *)
Lemma processLearnButton_trace b :
  trace (exec processLearnButton b)
  = trace (exec (getButtonState LEARN_BUTTON_PIN true) b).
Proof.
  unfold processLearnButton, exec, bind.
  destruct (getButtonState LEARN_BUTTON_PIN true b) as [r b1]. cbn [snd].
  destruct (r =? -1); [reflexivity|].
  unfold get. destruct (r =? of_boolean (learnButtonState (vars b1))); [reflexivity|].
  destruct b1 as [s e p l rd i q t]. reflexivity.
Qed.

Lemma processLearnButton_elapsed b :
  10 <= elapsed (trace (exec processLearnButton b)) - elapsed (trace b) <= 30.
Proof. rewrite processLearnButton_trace. apply getButtonState_elapsed. Qed.

Lemma processCode_elapsed v b :
  elapsed (trace (exec (processCode v) b)) - elapsed (trace b)
  = if learnModeEnabled (vars b) || (irCodeData (vars b) =? v) then 100 else 0.
Proof.
  unfold exec. destruct (learnModeEnabled (vars b)) eqn:Hmode.
  - rewrite processCode_learn by exact Hmode. cbn [snd trace orb].
    rewrite elapsed_app. cbn [elapsed]. lia.
  - cbn [orb]. destruct (Z.eqb_spec (irCodeData (vars b)) v) as [Heq|Hne].
    + rewrite processCode_match by assumption. cbn [snd trace].
      rewrite elapsed_app. cbn [elapsed]. lia.
    + rewrite processCode_mismatch by assumption. cbn [snd]. lia.
Qed.

Lemma processIr_elapsed RC6 b :
  let d := elapsed (trace (exec (processIr RC6) b)) - elapsed (trace b) in
  (d = 0 \/ d = 100) /\ (delivered RC6 b = None -> d = 0).
Proof.
  intros d. subst d. rewrite processIr_board, delivered_passed_on.
  destruct (ir b (polls b)) as [r|].
  - cbv zeta. destruct (passed_on RC6 r) as [v|].
    + pose proof (processCode_elapsed v
                    (log (IrDecode true) (with_vars (set_irresult r) (next_poll b))))
        as H.
      cbn [log trace with_vars next_poll] in *. rewrite !elapsed_app in *.
      cbn [elapsed] in *.
      split; [|discriminate].
      destruct (_ || _) in H; lia.
    + cbn [log trace with_vars next_poll]. rewrite !elapsed_app. cbn [elapsed].
      split; [left|]; lia.
  - cbn [log trace next_poll]. rewrite !elapsed_app. cbn [elapsed].
    split; [left|]; lia.
Qed.

(** X19: how long a pass of [loop] spends in [delay]: between 10 and 130 ms
    (the debounce window of 10 to 30 ms, plus 100 ms when a code was
    committed or matched), and at most 30 ms when nothing is delivered to
    [processCode]. *)
Theorem loop_pass_delay_bound RC6 b :
  let d := elapsed (trace (exec (loop RC6) b)) - elapsed (trace b) in
  10 <= d <= 130 /\ (delivered RC6 b = None -> d <= 30).
Proof.
  intros d. subst d. rewrite loop_split, !exec_bind.
  rewrite processWorkLed_run, processLearnLed_run.
  set (b1 := exec processLearnButton b).
  set (p := log _ (with_pins _ (log _ (with_pins _ b1)))).
  pose proof (processLearnButton_elapsed b) as Hb. fold b1 in Hb.
  destruct (processIr_elapsed RC6 p) as (Hir & Hnone).
  assert (elapsed (trace p) = elapsed (trace b1)) as Hp.
  { subst p. cbn [log with_pins trace]. rewrite !elapsed_app. cbn [elapsed]. lia. }
  assert (delivered RC6 p = delivered RC6 b) as Hd.
  { apply delivered_ext.
    - subst p. cbn [log with_pins ir].
      now destruct (processLearnButton_cases b) as (_ & Hi & _).
    - subst p. cbn [log with_pins polls].
      now destruct (processLearnButton_cases b) as (_ & _ & Hq & _). }
  rewrite Hd in Hnone.
  split; [lia|]. intros H. specialize (Hnone H). lia.
Qed.

(** ** The further properties at concrete boards *)

Lemma eeprom_round_trip_exactly_witness :
  eval (loadFromEeprom 0)
       (exec (saveToEeprom 551489775 0) (bench trained released_button silent_remote))
  = 551489775.
Proof.
  destruct (eeprom_round_trip_exactly 551489775 0
              (bench trained released_button silent_remote)) as (H & _).
  - unfold is_long, LONG_MIN, LONG_MAX. lia.
  - unfold is_int, INT_MIN, INT_MAX. lia.
  - unfold INT_MAX. lia.
  - apply H. left. reflexivity.
Defined.

Lemma word_macros_inverse_witness :
  makeLong (highWord (-1412567295)) (lowWord (-1412567295)) = -1412567295.
Proof.
  destruct (word_macros_inverse (-1412567295)) as (_ & _ & H).
  - unfold is_long, LONG_MIN, LONG_MAX. lia.
  - exact H.
Defined.

Lemma save_replaces_previous_witness :
  stored_at (eeprom (exec (saveToEeprom 165 0)
                          (exec (saveToEeprom 305419896 0)
                                (bench trained released_button silent_remote)))) 0
  = [0; 0; 0; 165].
Proof.
  destruct (save_replaces_previous 305419896 165 0
              (bench trained released_button silent_remote)) as (_ & H & _).
  - unfold is_int, INT_MIN, INT_MAX. lia.
  - unfold INT_MAX. lia.
  - exact H.
Defined.

Lemma load_decodes_big_endian_witness :
  eval (loadFromEeprom 0) (bench trained released_button silent_remote) = -1.
Proof.
  destruct (load_decodes_big_endian 0 (bench trained released_button silent_remote))
    as (_ & _ & _ & H & _).
  - unfold is_int, INT_MIN, INT_MAX. lia.
  - unfold INT_MAX. lia.
  - rewrite H; [reflexivity|]. vm_compute. discriminate.
Defined.


Lemma press_edge_enters_learning_witness :
  learnModeEnabled (vars (exec processLearnButton
                               (bench trained held_button silent_remote))) = true
  /\ vars (exec processLearnButton
                (bench (mkSketch true false false 165 (IRremote.mk_results 0 0))
                       held_button silent_remote))
     = mkSketch true false false 165 (IRremote.mk_results 0 0).
Proof.
  split.
  - destruct (press_edge_enters_learning (bench trained held_button silent_remote))
      as (H & _).
    destruct H as (H & _); [reflexivity|reflexivity|exact H].
  - destruct (press_edge_enters_learning
                (bench (mkSketch true false false 165 (IRremote.mk_results 0 0))
                       held_button silent_remote)) as (_ & H & _).
    destruct H as (H & _); [reflexivity|reflexivity|exact H].
Defined.

Lemma relearn_replaces_previous_witness :
  let b' := exec (processCode 90) (bench learning held_button silent_remote) in
  exec (processCode 165) b' = b'
  /\ workLedState (vars (exec (processCode 90) b')) = true.
Proof.
  destruct (relearn_replaces_previous 165 90 (bench learning held_button silent_remote))
    as (H1 & H2 & _).
  - reflexivity.
  - discriminate.
  - split; [exact H1|exact H2].
Defined.

Lemma matching_codes_toggle_each_pass_witness :
  workLedState (vars (exec (loops 4 3)
                           (bench trained released_button (repeating_remote 1 165))))
  = true.
Proof.
  destruct (matching_codes_toggle_each_pass 4 3
              (bench trained released_button (repeating_remote 1 165))) as (H & _).
  - reflexivity.
  - intros k. reflexivity.
  - intros k _. eexists. split; reflexivity.
  - exact H.
Defined.

Lemma learn_mode_waits_for_a_code_witness :
  same_machine
    (exec (loops 4 3) (bench learning held_button (repeating_remote 1 4294967295)))
    (bench learning held_button (repeating_remote 1 4294967295)).
Proof.
  apply (learn_mode_waits_for_a_code 4 3).
  - reflexivity.
  - reflexivity.
  - intros k. reflexivity.
  - intros k _. reflexivity.
Defined.

Lemma loop_pass_delay_bound_witness :
  elapsed (trace (exec (loop 4) (bench trained released_button silent_remote))) <= 30.
Proof.
  destruct (loop_pass_delay_bound 4 (bench trained released_button silent_remote))
    as (_ & H).
  specialize (H eq_refl). cbn [bench trace elapsed] in H. lia.
Defined.

Lemma output_pins_lag_one_pass_witness :
  let b := bench trained released_button (repeating_remote 1 165) in
  workLedState (vars (exec (loops 4 1) b)) = true
  /\ pins (exec (loops 4 1) b) !! WORK_LED_PIN = Some false
  /\ pins (exec (loops 4 2) b) !! WORK_LED_PIN = Some true.
Proof.
  destruct (output_pins_lag_one_pass 4 0
              (bench trained released_button (repeating_remote 1 165))) as (H0 & _).
  destruct (output_pins_lag_one_pass 4 1
              (bench trained released_button (repeating_remote 1 165))) as (H1 & _).
  split; [reflexivity|]. split; [exact H0|exact H1].
Defined.

Lemma press_and_code_in_one_pass_witness :
  let b' := exec (loop 4) (bench trained held_button (repeating_remote 4 42405)) in
  irCodeData (vars b') = 9637 /\ learnModeEnabled (vars b') = false
  /\ pins b' !! LEARN_LED_PIN = Some true.
Proof.
  destruct (press_and_code_in_one_pass 4 9637
              (bench trained held_button (repeating_remote 4 42405)))
    as (H1 & _ & H3 & _ & _ & H6).
  - reflexivity.
  - reflexivity.
  - reflexivity.
  - repeat split; assumption.
Defined.

Lemma loop_writes_only_its_cells_witness :
  eeprom (exec (loops 4 3) (bench trained held_button (repeating_remote 4 42405))) !! 4
  = None.
Proof.
  destruct (loop_writes_only_its_cells 4 3
              (bench trained held_button (repeating_remote 4 42405))) as (H & _).
  rewrite H; [reflexivity|]. right. unfold IR_CODE_DATA_ADDRESS. lia.
Defined.

Lemma store_mirrors_trained_code_witness :
  mirrored (exec (loops 4 2)
                 (exec (processCode 165) (bench learning held_button silent_remote))).
Proof.
  destruct (store_mirrors_trained_code 4) as (H1 & H2 & _).
  apply H1. apply H2. reflexivity.
Defined.

Lemma learned_code_is_never_sentinel_witness :
  irCodeData (vars (exec (loops 4 3)
                         (bench trained held_button (repeating_remote 1 4294967295))))
  <> -1.
Proof.
  destruct (learned_code_is_never_sentinel 4) as (_ & H).
  apply H. discriminate.
Defined.

Lemma trained_code_after_reset_witness :
  irCodeData (vars (exec setup
     (power_on (eeprom (exec (processCode 551489775)
                             (bench learning held_button silent_remote)))
               released_button silent_remote))) = 551489775.
Proof.
  destruct (trained_code_after_reset 551489775
              (bench learning held_button silent_remote) released_button silent_remote)
    as (_ & H & _).
  - reflexivity.
  - unfold is_long, LONG_MIN, LONG_MAX. lia.
  - apply H. left. reflexivity.
Defined.

Lemma rc6_code_survives_reset_witness :
  irCodeData (vars (exec setup
     (power_on (eeprom (exec (processIr 4)
                             (bench learning held_button (repeating_remote 4 42405))))
               released_button silent_remote))) = 9637.
Proof.
  destruct (rc6_code_survives_reset 4 (IRremote.mk_results 4 42405)
              (bench learning held_button (repeating_remote 4 42405))
              released_button silent_remote) as (H1 & H2 & _).
  - reflexivity.
  - reflexivity.
  - unfold is_ulong. cbn. lia.
  - discriminate.
  - reflexivity.
  - rewrite H2. exact H1.
Defined.

Lemma rc6_toggle_bit_ignored_witness :
  same_machine
    (exec (processIr 4) (bench trained released_button (repeating_remote 4 165)))
    (exec (processIr 4) (bench trained released_button (repeating_remote 4 32933))).
Proof.
  apply (rc6_toggle_bit_ignored 4 (IRremote.mk_results 4 165)
           (IRremote.mk_results 4 32933)).
  - repeat split.
  - reflexivity.
  - reflexivity.
  - reflexivity.
  - reflexivity.
  - unfold is_ulong. cbn. lia.
  - unfold is_ulong. cbn. lia.
  - discriminate.
  - discriminate.
  - reflexivity.
Defined.
